(** * Neutron scenario helpers of rally-openstack

    A shallow embedding of
    [rally_openstack/task/scenarios/neutron/utils.py]: the helper methods of
    [NeutronBaseScenario] and [NeutronScenario] that shape keyword arguments,
    forward them to the networking service and reshape its answers.

    Python dictionaries are finite maps with string keys.  A dictionary that a
    method receives by reference and mutates lives in a store, so that what
    the caller sees after the call can be stated.  Calls to the injected
    service objects are answered by an environment and recorded in a trace;
    exceptions are values threaded through a state-and-error monad. *)

From Stdlib Require Import ZArith.
From stdpp Require Import gmap strings list fin_maps.

Set Warnings "-register-all".
Local Open Scope string_scope.

(** ** Python values *)

Inductive value : Type :=
| VNone
| VBool (b : bool)
| VInt (z : Z)
| VStr (s : string)
| VList (l : list value)
| VDict (d : gmap string value)
| VExc (cls : string) (bases : list string) (attrs : gmap string value).

(** An exception object: its class, the other classes of its MRO, and the
    attributes set on the instance. *)
Record exn : Type := Exn {
  exn_class : string;
  exn_bases : list string;
  exn_attrs : gmap string value
}.

Definition exn_value (e : exn) : value :=
  VExc (exn_class e) (exn_bases e) (exn_attrs e).

(** [isinstance(e, c)] *)
Definition isinstance (e : exn) (c : string) : bool :=
  bool_decide (c = exn_class e ∨ c ∈ exn_bases e).

(** [getattr(e, name, default)] *)
Definition getattr (e : exn) (name : string) (dflt : value) : value :=
  default dflt (exn_attrs e !! name).

Inductive outcome (A : Type) : Type :=
| Returned (a : A)
| Raised (e : exn).
Arguments Returned {A} a.
Arguments Raised {A} e.

(** Built-in exceptions raised by the interpreter itself.  The message text
    of the interpreter is not modelled; [KeyError] keeps the missing key. *)
Definition KeyError (k : string) : exn :=
  Exn "KeyError" ["LookupError"; "Exception"; "BaseException"]
      {[ "args" := VList [VStr k] ]}.
Definition IndexError : exn :=
  Exn "IndexError" ["LookupError"; "Exception"; "BaseException"] ∅.
Definition TypeError : exn :=
  Exn "TypeError" ["Exception"; "BaseException"] ∅.
Definition ZeroDivisionError : exn :=
  Exn "ZeroDivisionError" ["ArithmeticError"; "Exception"; "BaseException"] ∅.

(** [v[k]] for a string key [k]. *)
Definition subscript (v : value) (k : string) : outcome value :=
  match v with
  | VDict d =>
      match d !! k with
      | Some x => Returned x
      | None => Raised (KeyError k)
      end
  | _ => Raised TypeError
  end.

(** [resource[kind]["id"]] *)
Definition resource_id (kind : string) (resource : value) : outcome value :=
  match subscript resource kind with
  | Returned inner => subscript inner "id"
  | Raised e => Raised e
  end.

(** [len(v)] *)
Definition len (v : value) : outcome Z :=
  match v with
  | VStr s => Returned (Z.of_nat (String.length s))
  | VList l => Returned (Z.of_nat (length l))
  | VDict d => Returned (Z.of_nat (size d))
  | _ => Raised TypeError
  end.

(** [a % b] on integers; the sign of the result follows the divisor, as
    [Z.modulo] does. *)
Definition py_mod (a b : Z) : outcome Z :=
  if decide (b = 0%Z) then Raised ZeroDivisionError else Returned (a `mod` b)%Z.

(** [v[i]] for an integer index [i]; negative indices count from the end. *)
Definition item (v : value) (i : Z) : outcome value :=
  match v with
  | VList l =>
      let j := if decide (i < 0)%Z then (i + Z.of_nat (length l))%Z else i in
      if decide (j < 0)%Z then Raised IndexError
      else match l !! Z.to_nat j with
           | Some x => Returned x
           | None => Raised IndexError
           end
  | VStr s =>
      let j := if decide (i < 0)%Z then (i + Z.of_nat (String.length s))%Z else i in
      if decide (j < 0)%Z then Raised IndexError
      else match String.get (Z.to_nat j) s with
           | Some c => Returned (VStr (String c EmptyString))
           | None => Raised IndexError
           end
  | VDict _ => Raised (Exn "KeyError" ["LookupError"; "Exception"; "BaseException"]
                           {[ "args" := VList [VInt i] ]})
  | _ => Raised TypeError
  end.

(** ** The world a scenario runs in *)

(** The three service objects a scenario talks to: [self.neutron] (and
    [self.admin_neutron]), [self.clients("neutron")] and
    [self.admin_clients("neutron")]. *)
Inductive endpoint : Type :=
| NeutronService
| NeutronClient
| AdminNeutronClient.

Record call : Type := Call {
  target : endpoint;
  method : string;
  args : list value;
  kwargs : gmap string value
}.

Definition loc : Type := positive.

Record world : Type := World {
  heap : gmap loc (gmap string value);
  trace : list call;
  drawn : nat
}.

(** [CONF.openstack]: the two options this module reads. *)
Record openstack_conf : Type := OpenstackConf {
  neutron_create_loadbalancer_timeout : nat;
  neutron_create_loadbalancer_poll_interval : positive
}.

(** What surrounds the module: the answers of the service objects (which
    may depend on the calls made so far), the framework's random-name
    generator, the base classes of the framework's exception classes, and
    the configuration. *)
Record env : Type := Env {
  service : list call -> call -> outcome value;
  random_name : nat -> string;
  rally_bases : string -> list string;
  CONF : openstack_conf
}.

(** ** State-and-error monad *)

Definition M (A : Type) : Type := world -> outcome A * world.

Definition ret {A} (a : A) : M A := fun w => (Returned a, w).
Definition raise {A} (e : exn) : M A := fun w => (Raised e, w).
Definition bind {A B} (m : M A) (k : A -> M B) : M B :=
  fun w => match m w with
           | (Returned a, w') => k a w'
           | (Raised e, w') => (Raised e, w')
           end.
Definition lift {A} (o : outcome A) : M A := fun w => (o, w).

(** [try: m  except <classes accepted by catches> as e: handler e] *)
Definition try_except {A} (m : M A) (catches : exn -> bool) (handler : exn -> M A) : M A :=
  fun w => match m w with
           | (Returned a, w') => (Returned a, w')
           | (Raised e, w') => if catches e then handler e w' else (Raised e, w')
           end.

Declare Scope py_scope.
Delimit Scope py_scope with py.
Notation "x <- m ;; k" := (bind m (fun x => k))
  (at level 100, m at next level, right associativity) : py_scope.
Notation "m ;;; k" := (bind m (fun _ => k))
  (at level 100, right associativity) : py_scope.
Local Open Scope py_scope.

(** The dictionary stored at a location; a location never written holds
    the empty dictionary. *)
Definition load (l : loc) : M (gmap string value) :=
  fun w => (Returned (heap w !!! l), w).
Definition store (l : loc) (d : gmap string value) : M unit :=
  fun w => (Returned tt, World (<[l := d]> (heap w)) (trace w) (drawn w)).

(** [{**d}] with the explicit keyword [k=v] added, as in [f(k=v, **d)]:
    Python refuses a keyword given twice. *)
Definition keyword (k : string) (v : value) (d : gmap string value)
  : outcome (gmap string value) :=
  match d !! k with
  | Some _ => Raised TypeError
  | None => Returned (<[k := v]> d)
  end.

(** [v == n] for an integer literal [n] (a [bool] is an [int] in Python). *)
Definition eq_int (v : value) (n : Z) : bool :=
  match v with
  | VInt z => bool_decide (z = n)
  | VBool b => bool_decide ((if b then 1 else 0)%Z = n)
  | _ => false
  end.

(** The scenario context: [self.context["tenant"]] and
    [self.context["iteration"]]. *)
Record context : Type := Context {
  tenant : gmap string value;
  iteration : Z
}.

Section Framework.
Variable E : env.

(** A call on one of the injected service objects: answered by the
    environment, recorded in the trace. *)
Definition invoke (c : call) : M value :=
  fun w => (service E (trace w) c,
            World (heap w) (trace w ++ [c]) (drawn w)).

(** [self.generate_random_name()] *)
Definition generate_random_name : M string :=
  fun w => (Returned (random_name E (drawn w)),
            World (heap w) (trace w) (S (drawn w))).

(** Exceptions of [rally.exceptions], built with keyword arguments. *)
Definition rally_exception (cls : string) (kw : gmap string value) : exn :=
  Exn cls (rally_bases E cls) kw.
Definition NotFoundException (message : string) : exn :=
  rally_exception "NotFoundException" {[ "message" := VStr message ]}.
Definition GetResourceNotFound (resource : value) : exn :=
  rally_exception "GetResourceNotFound" {[ "resource" := resource ]}.
Definition GetResourceFailure (resource : value) (err : exn) : exn :=
  rally_exception "GetResourceFailure"
    (<["resource" := resource]> {[ "err" := exn_value err ]}).
Definition TimeoutException : exn :=
  rally_exception "TimeoutException" ∅.
End Framework.

(** ** rally.task.utils *)

Module utils.
Section Wait.
Variable E : env.

Definition is_ready (ready_statuses : list string) (status_attr : string)
    (resource : value) : bool :=
  match resource with
  | VDict d =>
      match d !! status_attr with
      | Some (VStr s) => bool_decide (s ∈ ready_statuses)
      | _ => false
      end
  | _ => false
  end.

(** One refresh per unit of budget, until the resource is ready. *)
Fixpoint poll (budget : nat) (ready_statuses : list string)
    (status_attr : string) (update_resource : value -> M value)
    (resource : value) : M value :=
  match budget with
  | O => raise (TimeoutException E)
  | S n =>
      r <- update_resource resource ;;
      if is_ready ready_statuses status_attr r then ret r
      else poll n ready_statuses status_attr update_resource r
  end.

(** Modelled from the spec: [rally.task.utils.wait_for_status], the
    platform's generic wait-for-status utility, which is not among the
    sources of this repository.  Following the spec (component design,
    shape b) it polls the status field of an external resource, refreshing
    the resource with [update_resource], until the status is a ready one
    or the timeout elapses.  Time is counted in polls: a refresh happens
    every [check_interval], so the timeout has elapsed after
    [timeout / check_interval + 1] refreshes. *)
Definition wait_for_status (resource : value) (ready_statuses : list string)
    (status_attr : string) (update_resource : value -> M value)
    (timeout : nat) (check_interval : positive) : M value :=
  poll (S (timeout / Pos.to_nat check_interval))
       ready_statuses status_attr update_resource resource.
End Wait.
End utils.

(** ** NeutronBaseScenario *)

Module NeutronBaseScenario.
Section Methods.
Variable E : env.
Variable ctx : context.

Definition _get_or_create_network (network_create_args : gmap string value)
  : M value :=
  match tenant ctx !! "networks" with
  | Some networks =>
      n <- lift (len networks) ;;
      net_idx <- lift (py_mod (iteration ctx) n) ;;
      lift (item networks net_idx)
  | None =>
      invoke E (Call NeutronService "create_network" [] network_create_args)
  end.
End Methods.
End NeutronBaseScenario.

(** ** More of the Python runtime *)




(** [{}]: a new empty dictionary, at a location the store does not hold. *)
Definition new_dict : M loc :=
  fun w => let l := fresh (dom (heap w)) in
           (Returned l, World (<[l := ∅]> (heap w)) (trace w) (drawn w)).

(** [args or {}] for an optional dictionary [args]: [None] and the empty
    dictionary are false, so a new dictionary stands in for them. *)
Definition or_new_dict (args : option loc) : M loc :=
  match args with
  | Some l =>
      d <- load l ;;
      if decide (size d = 0) then new_dict else ret l
  | None => new_dict
  end.


(** [[m for _ in range(n)]] *)
Fixpoint times {A} (n : nat) (m : M A) : M (list A) :=
  match n with
  | O => ret []
  | S k => x <- m ;; xs <- times k m ;; ret (x :: xs)
  end.




(** ** NeutronScenario *)

Module NeutronScenario.

Definition LB_METHOD : value := VStr "ROUND_ROBIN".
Definition LB_PROTOCOL : value := VStr "HTTP".
Definition LB_PROTOCOL_PORT : value := VInt 80.
Definition HM_TYPE : value := VStr "PING".
Definition HM_MAX_RETRIES : value := VInt 3.
Definition HM_DELAY : value := VInt 20.
Definition HM_TIMEOUT : value := VInt 10.

Section Methods.
Variable E : env.

(** [{key: v}] *)
Definition wrap (key : string) (v : value) : value := VDict {[ key := v ]}.

(** [resource[kind]["id"]], as in [network["network"]["id"]] *)
Definition id_of (kind : string) (resource : value) : M value :=
  lift (resource_id kind resource).

Definition _get_network_id (network : string) (kwargs : gmap string value)
  : M value :=
  try_except
    (found <- invoke E (Call NeutronService "find_network" [VStr network] ∅) ;;
     lift (subscript found "id"))
    (fun e => isinstance e "GetResourceFailure")
    (fun _ => raise (NotFoundException E
                       ("Network " ++ network ++ " not found."))).

Definition _create_network (network_create_args : loc) : M value :=
  d <- load network_create_args ;;
  store network_create_args (delete "name" d) ;;;
  kw <- load network_create_args ;;
  r <- invoke E (Call NeutronService "create_network" [] kw) ;;
  ret (wrap "network" r).

Definition _update_network (network : value) (network_update_args : loc)
  : M value :=
  name <- generate_random_name E ;;
  d <- load network_update_args ;;
  store network_update_args (<["name" := VStr name]> d) ;;;
  net_id <- id_of "network" network ;;
  kw <- load network_update_args ;;
  r <- invoke E (Call NeutronService "update_network" [net_id] kw) ;;
  ret (wrap "network" r).

Definition _show_network (network : value) (kwargs : gmap string value)
  : M value :=
  net_id <- id_of "network" network ;;
  r <- invoke E (Call NeutronService "get_network" [net_id] kwargs) ;;
  ret (wrap "network" r).

Definition _create_subnet (network : value) (subnet_create_args : loc)
    (start_cidr : value) : M value :=
  d <- load subnet_create_args ;;
  store subnet_create_args (delete "name" d) ;;;
  net_id <- id_of "network" network ;;
  d <- load subnet_create_args ;;
  store subnet_create_args (<["network_id" := net_id]> d) ;;;
  d <- load subnet_create_args ;;
  store subnet_create_args (<["start_cidr" := start_cidr]> d) ;;;
  kw <- load subnet_create_args ;;
  r <- invoke E (Call NeutronService "create_subnet" [] kw) ;;
  ret (wrap "subnet" r).

Definition _update_subnet (subnet : value) (subnet_update_args : loc)
  : M value :=
  name <- generate_random_name E ;;
  d <- load subnet_update_args ;;
  store subnet_update_args (<["name" := VStr name]> d) ;;;
  subnet_id <- id_of "subnet" subnet ;;
  kw <- load subnet_update_args ;;
  r <- invoke E (Call NeutronService "update_subnet" [subnet_id] kw) ;;
  ret (wrap "subnet" r).

Definition _create_router (router_create_args : loc) (external_gw : value)
  : M value :=
  d <- load router_create_args ;;
  store router_create_args (delete "name" d) ;;;
  d <- load router_create_args ;;
  match d !! "tenant_id", d !! "project_id" with
  | Some t, None =>
      store router_create_args
            (<["project_id" := t]> (delete "tenant_id" d))
  | _, _ => ret tt
  end ;;;
  d <- load router_create_args ;;
  kw <- lift (keyword "discover_external_gw" external_gw d) ;;
  r <- invoke E (Call NeutronService "create_router" [] kw) ;;
  ret (wrap "router" r).

Definition _update_router (router : value) (router_update_args : loc)
  : M value :=
  name <- generate_random_name E ;;
  d <- load router_update_args ;;
  store router_update_args (<["name" := VStr name]> d) ;;;
  router_id <- id_of "router" router ;;
  kw <- load router_update_args ;;
  r <- invoke E (Call NeutronService "update_router" [router_id] kw) ;;
  ret (wrap "router" r).

Definition _update_port (port : value) (port_update_args : loc) : M value :=
  name <- generate_random_name E ;;
  d <- load port_update_args ;;
  store port_update_args (<["name" := VStr name]> d) ;;;
  port_id <- id_of "port" port ;;
  kw <- load port_update_args ;;
  r <- invoke E (Call NeutronService "update_port" [port_id] kw) ;;
  ret (wrap "port" r).

(** [args = {...defaults...}; args.update(pool_create_args)]: the keys of
    the caller win. *)
Definition _create_lb_pool (subnet_id : value)
    (pool_create_args : gmap string value) : M value :=
  name <- generate_random_name E ;;
  let args : gmap string value :=
    pool_create_args ∪
      (<["lb_method" := LB_METHOD]>
         (<["protocol" := LB_PROTOCOL]>
            (<["name" := VStr name]> {[ "subnet_id" := subnet_id ]}))) in
  invoke E (Call NeutronClient "create_pool" [wrap "pool" (VDict args)] ∅).

Definition _create_v1_healthmonitor
    (healthmonitor_create_args : gmap string value) : M value :=
  let args : gmap string value :=
    healthmonitor_create_args ∪
      (<["type" := HM_TYPE]>
         (<["delay" := HM_DELAY]>
            (<["max_retries" := HM_MAX_RETRIES]>
               {[ "timeout" := HM_TIMEOUT ]}))) in
  invoke E (Call NeutronClient "create_health_monitor"
                 [wrap "health_monitor" (VDict args)] ∅).

Definition _update_security_group (security_group : value)
    (security_group_update_args : gmap string value) : M value :=
  name <- generate_random_name E ;;
  let kw := <["name" := VStr name]> security_group_update_args in
  sg_id <- id_of "security_group" security_group ;;
  r <- invoke E (Call NeutronService "update_security_group" [sg_id] kw) ;;
  ret (wrap "security_group" r).

Definition update_loadbalancer_resource (lb : value) : M value :=
  new_lb <-
    try_except
      (lb_id <- lift (subscript lb "id") ;;
       invoke E (Call NeutronClient "show_loadbalancer" [lb_id] ∅))
      (fun e => isinstance e "Exception")
      (fun e =>
         if eq_int (getattr e "status_code" (VInt 400)) 404
         then raise (GetResourceNotFound E lb)
         else raise (GetResourceFailure E lb e)) ;;
  lift (subscript new_lb "loadbalancer").

Definition _create_lbaasv2_loadbalancer (subnet_id : value)
    (lb_create_args : gmap string value) : M value :=
  name <- generate_random_name E ;;
  let args : gmap string value :=
    lb_create_args ∪
      (<["name" := VStr name]> {[ "vip_subnet_id" := subnet_id ]}) in
  lb <- invoke E (Call NeutronClient "create_loadbalancer"
                       [wrap "loadbalancer" (VDict args)] ∅) ;;
  lb <- lift (subscript lb "loadbalancer") ;;
  utils.wait_for_status E lb ["ACTIVE"] "provisioning_status"
    update_loadbalancer_resource
    (neutron_create_loadbalancer_timeout (CONF E))
    (neutron_create_loadbalancer_poll_interval (CONF E)).

Definition _update_bgpvpn (bgpvpn : value) (update_name : bool)
    (kwargs : gmap string value) : M value :=
  kwargs <-
    (if update_name || bool_decide (is_Some (kwargs !! "name"))
     then name <- generate_random_name E ;;
          ret (<["name" := VStr name]> kwargs)
     else ret kwargs) ;;
  bgpvpn_id <- id_of "bgpvpn" bgpvpn ;;
  invoke E (Call AdminNeutronClient "update_bgpvpn"
                 [bgpvpn_id; wrap "bgpvpn" (VDict kwargs)] ∅).

(** The methods below complete the class. *)

Definition _delete_network (network : value) : M value :=
  net_id <- lift (subscript network "id") ;;
  invoke E (Call NeutronService "delete_network" [net_id] ∅) ;;;
  ret VNone.

Definition _create_subnets (network : value) (subnet_create_args : option loc)
    (subnet_cidr_start : value) (subnets_per_network : Z) : M value :=
  subnets <-
    times (Z.to_nat subnets_per_network)
      (l <- or_new_dict subnet_create_args ;;
       _create_subnet network l subnet_cidr_start) ;;
  ret (VList subnets).

(** [kwargs] is accepted and not used. *)
Definition _show_subnet (subnet : value) (kwargs : gmap string value)
  : M value :=
  subnet_id <- id_of "subnet" subnet ;;
  r <- invoke E (Call NeutronService "get_subnet" [subnet_id] ∅) ;;
  ret (wrap "subnet" r).

Definition _delete_subnet (subnet : value) : M value :=
  subnet_id <- id_of "subnet" subnet ;;
  invoke E (Call NeutronService "delete_subnet" [subnet_id] ∅) ;;;
  ret VNone.

Definition _show_router (router : value) (kwargs : gmap string value)
  : M value :=
  router_id <- id_of "router" router ;;
  r <- invoke E (Call NeutronService "get_router" [router_id] kwargs) ;;
  ret (wrap "router" r).

Definition _delete_router (router : value) : M value :=
  router_id <- id_of "router" router ;;
  invoke E (Call NeutronService "delete_router" [router_id] ∅) ;;;
  ret VNone.

Definition _create_port (network : value)
    (port_create_args : gmap string value) : M value :=
  net_id <- id_of "network" network ;;
  kw <- lift (keyword "network_id" net_id port_create_args) ;;
  r <- invoke E (Call NeutronService "create_port" [] kw) ;;
  ret (wrap "port" r).

Definition _show_port (port : value) (params : gmap string value)
  : M value :=
  port_id <- id_of "port" port ;;
  r <- invoke E (Call NeutronService "get_port" [port_id] params) ;;
  ret (wrap "port" r).

Definition _delete_port (port : value) : M value :=
  port_id <- id_of "port" port ;;
  invoke E (Call NeutronService "delete_port" [port_id] ∅) ;;;
  ret VNone.




Definition _update_v1_pool (pool : value)
    (pool_update_args : gmap string value) : M value :=
  name <- generate_random_name E ;;
  let body := wrap "pool" (VDict (<["name" := VStr name]> pool_update_args)) in
  pool_id <- id_of "pool" pool ;;
  invoke E (Call NeutronClient "update_pool" [pool_id; body] ∅).

Definition _create_v1_vip (pool : value)
    (vip_create_args : gmap string value) : M value :=
  name <- generate_random_name E ;;
  pool_id <- id_of "pool" pool ;;
  inner <- lift (subscript pool "pool") ;;
  subnet_id <- lift (subscript inner "subnet_id") ;;
  let args : gmap string value :=
    vip_create_args ∪
      (<["protocol" := LB_PROTOCOL]>
         (<["protocol_port" := LB_PROTOCOL_PORT]>
            (<["name" := VStr name]>
               (<["pool_id" := pool_id]> {[ "subnet_id" := subnet_id ]})))) in
  invoke E (Call NeutronClient "create_vip" [wrap "vip" (VDict args)] ∅).

Definition _update_v1_vip (vip : value)
    (vip_update_args : gmap string value) : M value :=
  name <- generate_random_name E ;;
  let body := wrap "vip" (VDict (<["name" := VStr name]> vip_update_args)) in
  vip_id <- id_of "vip" vip ;;
  invoke E (Call NeutronClient "update_vip" [vip_id; body] ∅).

Definition _update_v1_healthmonitor (healthmonitor : value)
    (healthmonitor_update_args : gmap string value) : M value :=
  let body := wrap "health_monitor" (VDict healthmonitor_update_args) in
  hm_id <- id_of "health_monitor" healthmonitor ;;
  invoke E (Call NeutronClient "update_health_monitor" [hm_id; body] ∅).

Definition _create_security_group
    (security_group_create_args : gmap string value) : M value :=
  name <- generate_random_name E ;;
  r <- invoke E (Call NeutronService "create_security_group" []
                   (<["name" := VStr name]> security_group_create_args)) ;;
  ret (wrap "security_group" r).

Definition _delete_security_group (security_group : value) : M value :=
  sg_id <- id_of "security_group" security_group ;;
  invoke E (Call NeutronService "delete_security_group" [sg_id] ∅).

Definition _show_security_group (security_group : value)
    (kwargs : gmap string value) : M value :=
  sg_id <- id_of "security_group" security_group ;;
  r <- invoke E (Call NeutronService "get_security_group" [sg_id] kwargs) ;;
  ret (wrap "security_group" r).

Definition _create_bgpvpn (kwargs : gmap string value) : M value :=
  name <- generate_random_name E ;;
  invoke E (Call AdminNeutronClient "create_bgpvpn"
              [wrap "bgpvpn" (VDict (<["name" := VStr name]> kwargs))] ∅).

Definition _delete_bgpvpn (bgpvpn : value) : M value :=
  bgpvpn_id <- id_of "bgpvpn" bgpvpn ;;
  invoke E (Call AdminNeutronClient "delete_bgpvpn" [bgpvpn_id] ∅).

Definition _create_trunk (trunk_payload : loc) : M value :=
  name <- generate_random_name E ;;
  d <- load trunk_payload ;;
  store trunk_payload (<["name" := VStr name]> d) ;;;
  body <- load trunk_payload ;;
  invoke E (Call NeutronClient "create_trunk" [wrap "trunk" (VDict body)] ∅).

Definition _add_interface_router (subnet router : value) : M value :=
  router_id <- lift (subscript router "id") ;;
  subnet_id <- lift (subscript subnet "id") ;;
  invoke E (Call NeutronService "add_interface_to_router" []
              (<["router_id" := router_id]> {[ "subnet_id" := subnet_id ]})) ;;;
  ret VNone.

Definition _create_floatingip (floating_network : value)
    (floating_ip_args : gmap string value) : M value :=
  kw <- lift (keyword "floating_network" floating_network floating_ip_args) ;;
  r <- invoke E (Call NeutronService "create_floatingip" [] kw) ;;
  ret (wrap "floatingip" r).

Definition _delete_floating_ip (floating_ip : value) : M value :=
  fip_id <- lift (subscript floating_ip "id") ;;
  invoke E (Call NeutronService "delete_floatingip" [fip_id] ∅).
End Methods.
End NeutronScenario.

(** ** Successive refreshes of a polled resource *)

(** [refreshes update ready n r w r' w']: starting from resource [r] in world
    [w], [n] refreshes in a row succeed without the resource being ready,
    and leave resource [r'] in world [w']. *)
Inductive refreshes (update : value -> M value) (ready : value -> bool)
  : nat -> value -> world -> value -> world -> Prop :=
| refreshes_none r w : refreshes update ready 0 r w r w
| refreshes_more n r w r1 w1 r' w' :
    update r w = (Returned r1, w1) ->
    ready r1 = false ->
    refreshes update ready n r1 w1 r' w' ->
    refreshes update ready (S n) r w r' w'.

(** ** Concrete environments *)

Module Fixture.

Definition bases (cls : string) : list string :=
  ["RallyException"; "Exception"; "BaseException"].

Definition private_net : value :=
  VDict (<["id" := VStr "net-1"]> {[ "name" := VStr "private" ]}).

Definition lb_in (status : string) : value :=
  VDict (<["id" := VStr "lb-1"]> {[ "provisioning_status" := VStr status ]}).

Definition lookup_failed : exn :=
  Exn "GetResourceFailure" ["RallyException"; "Exception"; "BaseException"] ∅.
Definition connection_failed : exn :=
  Exn "ConnectionFailed" ["Exception"; "BaseException"] ∅.
Definition not_found_404 : exn :=
  Exn "NotFound" ["NeutronClientException"; "Exception"; "BaseException"]
      {[ "status_code" := VInt 404 ]}.
Definition interrupted : exn :=
  Exn "KeyboardInterrupt" ["BaseException"] ∅.


Definition shows (history : list call) : nat :=
  length (filter (fun c => method c = "show_loadbalancer") history).

(** A service that knows one network and one load balancer; the load
    balancer becomes ACTIVE at the third refresh. *)
Definition answers (history : list call) (c : call) : outcome value :=
  if String.eqb (method c) "find_network" then
    match args c with
    | [VStr "private"] => Returned private_net
    | [VStr "ctrl-c"] => Raised interrupted
    | _ => Raised lookup_failed
    end
  else if String.eqb (method c) "create_loadbalancer" then
    Returned (VDict {[ "loadbalancer" := lb_in "PENDING_CREATE" ]})
  else if String.eqb (method c) "show_loadbalancer" then
    match args c with
    | [VStr "lb-1"] =>
        Returned (VDict {[ "loadbalancer" :=
          lb_in (if decide (shows history < 2) then "PENDING_CREATE"
                 else "ACTIVE") ]})
    | [VStr "lb-gone"] => Raised not_found_404
    | [VStr "lb-int"] => Raised interrupted
    | _ => Raised connection_failed
    end
  else Returned (VDict {[ "id" := VStr "res-1" ]}).

Definition names (n : nat) : string :=
  "s_rally_" ++ String (Ascii.ascii_of_nat (97 + n)) EmptyString.

Definition conf : openstack_conf := OpenstackConf 500 2.

Definition E0 : env := Env answers names bases conf.

(** The same surroundings with a timeout that leaves room for two
    refreshes only. *)
Definition E_short : env := Env answers names bases (OpenstackConf 2 2).

Definition w0 : world := World ∅ [] 0.

(** A world whose store holds one caller-owned dictionary at location 1. *)
Definition holding (d : gmap string value) : world := World {[ 1%positive := d ]} [] 0.

Definition net1 : value := VDict {[ "network" := private_net ]}.

Definition lb_named (lb_id : string) : value := VDict {[ "id" := VStr lb_id ]}.



End Fixture.

(** ** Closed forms of the runs *)

(** The answer of a service call wrapped as [{key: answer}]. *)
Definition wrapped (key : string) (o : outcome value) : outcome value :=
  match o with
  | Returned r => Returned (VDict {[ key := r ]})
  | Raised e => Raised e
  end.

(** The world after call [c], with store [h] and [n] names drawn. *)
Definition after (w : world) (h : gmap loc (gmap string value)) (c : call)
    (n : nat) : world :=
  World h (trace w ++ [c]) n.

(** What [_create_router] leaves in the caller's dictionary [d]. *)
Definition router_args (d : gmap string value) : gmap string value :=
  let d1 := delete "name" d in
  match d1 !! "tenant_id", d1 !! "project_id" with
  | Some t, None => <["project_id" := t]> (delete "tenant_id" d1)
  | _, _ => d1
  end.

(** The update methods that take their options by reference share one
    shape: draw a name, write it into the caller's dictionary, read the
    resource id, forward. *)
Definition updated (E : env) (kind meth : string) (resource : value) (l : loc)
    (w : world) : outcome value * world :=
  let d := <["name" := VStr (random_name E (drawn w))]> (heap w !!! l) in
  let h := <[l := d]> (heap w) in
  match resource_id kind resource with
  | Returned i =>
      let c := Call NeutronService meth [i] d in
      (wrapped kind (service E (trace w) c), after w h c (S (drawn w)))
  | Raised e => (Raised e, World h (trace w) (S (drawn w)))
  end.

(** [v] is a mapping with the one key [key], bound to [r]. *)
Definition single_key (v : value) (key : string) (r : value) : Prop :=
  ∃ d : gmap string value,
    v = VDict d ∧ d !! key = Some r ∧ ∀ k, k ≠ key -> d !! k = None.

(** Run [r], started in world [w], drew one fresh name and, once the id of
    [resource] was read, forwarded one update to the service whose ["name"]
    option is that name and whose other options are those of [opts]; when
    the id cannot be read nothing is forwarded. *)
Definition forwards_update (E : env) (r : outcome value * world) (w : world)
    (kind meth : string) (resource : value) (opts : gmap string value)
  : Prop :=
  drawn r.2 = S (drawn w) ∧
  match resource_id kind resource with
  | Returned i =>
      ∃ kw, trace r.2 = (trace w ++ [Call NeutronService meth [i] kw])%list
            ∧ kw !! "name" = Some (VStr (random_name E (drawn w)))
            ∧ ∀ k, k ≠ "name" -> kw !! k = opts !! k
  | Raised _ => trace r.2 = trace w
  end.

(** What [_create_subnet] leaves in the caller's dictionary [d], and
    forwards. *)
Definition subnet_kwargs (net_id start_cidr : value) (d : gmap string value)
  : gmap string value :=
  <["start_cidr" := start_cidr]> (<["network_id" := net_id]> (delete "name" d)).

(** The service returns, whatever was called before, when asked [c]. *)
Definition always_returns (E : env) (c : call) : Prop :=
  ∀ history, ∃ r, service E history c = Returned r.




(** [body] is [opts] with ["name"] bound to the name the generator gives
    in world [w]. *)
Definition carries_generated_name (E : env) (w : world)
    (opts body : gmap string value) : Prop :=
  body !! "name" = Some (VStr (random_name E (drawn w)))
  ∧ ∀ k, k ≠ "name" -> body !! k = opts !! k.

(** ** Properties *)

Import NeutronScenario.

(** Unfolds the monadic plumbing. *)
Ltac run :=
  unfold id_of, try_except, bind, ret, raise, lift, load, store, invoke,
         generate_random_name; simpl.

Lemma subscript_raises (v : value) (k : string) (e : exn) :
  subscript v k = Raised e -> e = KeyError k ∨ e = TypeError.
Proof.
  destruct v; simpl; try (intros [= <-]; by right).
  destruct (d !! k); [done|]. intros [= <-]. by left.
Qed.

Lemma subscript_raises_no_lookup_failure (v : value) (k : string) (e : exn) :
  subscript v k = Raised e -> isinstance e "GetResourceFailure" = false.
Proof. intros [-> | ->]%subscript_raises; reflexivity. Qed.

(** C1: [_get_network_id] returns the ["id"] member of what
    [neutron.find_network] answers; when [find_network] raises an instance of
    [GetResourceFailure] the method raises [NotFoundException] with message
    "Network <network> not found."; any other exception of [find_network]
    reaches the caller unchanged. *)
Theorem get_network_id_translates_lookup_failure
    (E : env) (network : string) (kw : gmap string value) (w : world) :
  let c := Call NeutronService "find_network" [VStr network] ∅ in
  let w' := World (heap w) (trace w ++ [c]) (drawn w) in
  (∀ found, service E (trace w) c = Returned found ->
     _get_network_id E network kw w = (subscript found "id", w')) ∧
  (∀ e, service E (trace w) c = Raised e ->
     isinstance e "GetResourceFailure" = true ->
     _get_network_id E network kw w =
       (Raised (NotFoundException E ("Network " ++ network ++ " not found.")),
        w')) ∧
  (∀ e, service E (trace w) c = Raised e ->
     isinstance e "GetResourceFailure" = false ->
     _get_network_id E network kw w = (Raised e, w')).
Proof.
  cbv zeta. unfold _get_network_id. run. repeat split.
  - intros found ->. destruct (subscript found "id") eqn:Hid; [done|].
    by rewrite (subscript_raises_no_lookup_failure _ _ _ Hid).
  - by intros e -> ->.
  - by intros e -> ->.
Qed.

Lemma get_network_id_translates_lookup_failure_witness :
  _get_network_id Fixture.E0 "private" ∅ Fixture.w0
    = (Returned (VStr "net-1"),
       World ∅ [Call NeutronService "find_network" [VStr "private"] ∅] 0) ∧
  _get_network_id Fixture.E0 "missing" ∅ Fixture.w0
    = (Raised (NotFoundException Fixture.E0 "Network missing not found."),
       World ∅ [Call NeutronService "find_network" [VStr "missing"] ∅] 0) ∧
  _get_network_id Fixture.E0 "ctrl-c" ∅ Fixture.w0
    = (Raised Fixture.interrupted,
       World ∅ [Call NeutronService "find_network" [VStr "ctrl-c"] ∅] 0).
Proof.
  split; [|split].
  - destruct (get_network_id_translates_lookup_failure
                Fixture.E0 "private" ∅ Fixture.w0) as (H & _ & _).
    apply (H Fixture.private_net). reflexivity.
  - destruct (get_network_id_translates_lookup_failure
                Fixture.E0 "missing" ∅ Fixture.w0) as (_ & H & _).
    apply (H Fixture.lookup_failed); reflexivity.
  - destruct (get_network_id_translates_lookup_failure
                Fixture.E0 "ctrl-c" ∅ Fixture.w0) as (_ & _ & H).
    apply (H Fixture.interrupted); reflexivity.
Defined.

(** C2 (as amended): [update_loadbalancer_resource] returns the
    ["loadbalancer"] member of what [show_loadbalancer] answers.  When
    [show_loadbalancer] raises an [Exception] whose [status_code] is 404 the
    method raises [GetResourceNotFound(resource=lb)]; every other
    [Exception] is wrapped into [GetResourceFailure(resource=lb, err=e)];
    only what is not an [Exception] reaches the caller unchanged. *)
Theorem update_loadbalancer_resource_wraps_failures
    (E : env) (lb lb_id : value) (w : world) :
  subscript lb "id" = Returned lb_id ->
  let c := Call NeutronClient "show_loadbalancer" [lb_id] ∅ in
  let w' := World (heap w) (trace w ++ [c]) (drawn w) in
  (∀ new_lb, service E (trace w) c = Returned new_lb ->
     update_loadbalancer_resource E lb w
       = (subscript new_lb "loadbalancer", w')) ∧
  (∀ e, service E (trace w) c = Raised e ->
     isinstance e "Exception" = true ->
     eq_int (getattr e "status_code" (VInt 400)) 404 = true ->
     update_loadbalancer_resource E lb w
       = (Raised (GetResourceNotFound E lb), w')) ∧
  (∀ e, service E (trace w) c = Raised e ->
     isinstance e "Exception" = true ->
     eq_int (getattr e "status_code" (VInt 400)) 404 = false ->
     update_loadbalancer_resource E lb w
       = (Raised (GetResourceFailure E lb e), w')) ∧
  (∀ e, service E (trace w) c = Raised e ->
     isinstance e "Exception" = false ->
     update_loadbalancer_resource E lb w = (Raised e, w')).
Proof.
  intros Hid. cbv zeta. unfold update_loadbalancer_resource. run.
  rewrite Hid. simpl. repeat split.
  - by intros new_lb ->.
  - by intros e -> -> ->.
  - by intros e -> -> ->.
  - by intros e -> ->.
Qed.

Lemma update_loadbalancer_resource_wraps_failures_witness :
  let lb := Fixture.lb_named "lb-gone" in
  let lb' := Fixture.lb_named "lb-int" in
  subscript lb "id" = Returned (VStr "lb-gone") ∧
  update_loadbalancer_resource Fixture.E0 lb Fixture.w0
    = (Raised (GetResourceNotFound Fixture.E0 lb),
       World ∅ [Call NeutronClient "show_loadbalancer" [VStr "lb-gone"] ∅] 0) ∧
  update_loadbalancer_resource Fixture.E0 lb' Fixture.w0
    = (Raised Fixture.interrupted,
       World ∅ [Call NeutronClient "show_loadbalancer" [VStr "lb-int"] ∅] 0) ∧
  update_loadbalancer_resource Fixture.E0 (Fixture.lb_in "ACTIVE") Fixture.w0
    = (Returned (Fixture.lb_in "PENDING_CREATE"),
       World ∅ [Call NeutronClient "show_loadbalancer" [VStr "lb-1"] ∅] 0).
Proof.
  cbv zeta. split; [reflexivity|]. split; [|split].
  - destruct (update_loadbalancer_resource_wraps_failures Fixture.E0
                (Fixture.lb_named "lb-gone") (VStr "lb-gone")
                Fixture.w0 eq_refl) as (_ & H & _).
    apply (H Fixture.not_found_404); reflexivity.
  - destruct (update_loadbalancer_resource_wraps_failures Fixture.E0
                (Fixture.lb_named "lb-int") (VStr "lb-int")
                Fixture.w0 eq_refl) as (_ & _ & _ & H).
    apply (H Fixture.interrupted); reflexivity.
  - destruct (update_loadbalancer_resource_wraps_failures Fixture.E0
                (Fixture.lb_in "ACTIVE") (VStr "lb-1")
                Fixture.w0 eq_refl) as (H & _).
    etransitivity; [apply H; reflexivity | reflexivity].
Defined.

(** C2, as first stated, fails: an error of [show_loadbalancer] without
    status code 404 does not reach the caller unchanged, it comes out wrapped
    in [GetResourceFailure]. *)
Lemma update_loadbalancer_resource_does_not_propagate :
  let lb := Fixture.lb_named "lb-x" in
  let c := Call NeutronClient "show_loadbalancer" [VStr "lb-x"] ∅ in
  service Fixture.E0 [] c = Raised Fixture.connection_failed ∧
  getattr Fixture.connection_failed "status_code" (VInt 400) = VInt 400 ∧
  update_loadbalancer_resource Fixture.E0 lb Fixture.w0
    = (Raised (GetResourceFailure Fixture.E0 lb Fixture.connection_failed),
       World ∅ [c] 0) ∧
  GetResourceFailure Fixture.E0 lb Fixture.connection_failed
    ≠ Fixture.connection_failed.
Proof. cbv zeta. repeat split; try reflexivity. intros [=]. Qed.

(** *** Runs in closed form *)

Section Runs.
Variable E : env.

Lemma run_create_network (l : loc) (w : world) :
  let d := delete "name" (heap w !!! l) in
  let c := Call NeutronService "create_network" [] d in
  _create_network E l w
    = (wrapped "network" (service E (trace w) c),
       after w (<[l := d]> (heap w)) c (drawn w)).
Proof.
  cbv zeta. unfold _create_network, wrapped, after, wrap. run.
  rewrite lookup_total_insert_eq.
  by destruct (service E _ _).
Qed.

Lemma run_show_network (network : value) (kw : gmap string value) (w : world) :
  _show_network E network kw w =
    match resource_id "network" network with
    | Returned i =>
        let c := Call NeutronService "get_network" [i] kw in
        (wrapped "network" (service E (trace w) c),
         after w (heap w) c (drawn w))
    | Raised e => (Raised e, w)
    end.
Proof.
  unfold _show_network, wrapped, after, wrap. run.
  destruct (resource_id _ _); [|done].
  by destruct (service E _ _).
Qed.

Ltac run_update :=
  unfold updated, wrapped, after, wrap; run;
  rewrite lookup_total_insert_eq;
  destruct (resource_id _ _); [|done];
  by destruct (service E _ _).

Lemma run_update_network (network : value) (l : loc) (w : world) :
  _update_network E network l w = updated E "network" "update_network" network l w.
Proof. unfold _update_network. run_update. Qed.

Lemma run_update_subnet (subnet : value) (l : loc) (w : world) :
  _update_subnet E subnet l w = updated E "subnet" "update_subnet" subnet l w.
Proof. unfold _update_subnet. run_update. Qed.

Lemma run_update_router (router : value) (l : loc) (w : world) :
  _update_router E router l w = updated E "router" "update_router" router l w.
Proof. unfold _update_router. run_update. Qed.

Lemma run_update_port (port : value) (l : loc) (w : world) :
  _update_port E port l w = updated E "port" "update_port" port l w.
Proof. unfold _update_port. run_update. Qed.

Lemma run_update_security_group (sg : value) (kw : gmap string value) (w : world) :
  _update_security_group E sg kw w =
    let d := <["name" := VStr (random_name E (drawn w))]> kw in
    match resource_id "security_group" sg with
    | Returned i =>
        let c := Call NeutronService "update_security_group" [i] d in
        (wrapped "security_group" (service E (trace w) c),
         after w (heap w) c (S (drawn w)))
    | Raised e => (Raised e, World (heap w) (trace w) (S (drawn w)))
    end.
Proof.
  unfold _update_security_group, wrapped, after, wrap. run.
  destruct (resource_id _ _); [|done].
  by destruct (service E _ _).
Qed.

Lemma run_create_subnet (network : value) (l : loc) (start_cidr : value)
    (w : world) :
  let d1 := delete "name" (heap w !!! l) in
  _create_subnet E network l start_cidr w =
    match resource_id "network" network with
    | Returned i =>
        let d := <["start_cidr" := start_cidr]> (<["network_id" := i]> d1) in
        let c := Call NeutronService "create_subnet" [] d in
        (wrapped "subnet" (service E (trace w) c),
         after w (<[l := d]> (heap w)) c (drawn w))
    | Raised e => (Raised e, World (<[l := d1]> (heap w)) (trace w) (drawn w))
    end.
Proof.
  cbv zeta. unfold _create_subnet, wrapped, after, wrap. run.
  destruct (resource_id _ _); [|done]. simpl.
  rewrite !lookup_total_insert_eq, !insert_insert_eq.
  by destruct (service E _ _).
Qed.

Lemma run_create_router (l : loc) (external_gw : value) (w : world) :
  let d := router_args (heap w !!! l) in
  let h := <[l := d]> (heap w) in
  _create_router E l external_gw w =
    match keyword "discover_external_gw" external_gw d with
    | Returned kw =>
        let c := Call NeutronService "create_router" [] kw in
        (wrapped "router" (service E (trace w) c), after w h c (drawn w))
    | Raised e => (Raised e, World h (trace w) (drawn w))
    end.
Proof.
  cbv zeta. unfold _create_router, router_args, wrapped, after, wrap. run.
  rewrite !lookup_total_insert_eq.
  destruct (delete "name" (heap w !!! l) !! "tenant_id") as [t|];
    [destruct (delete "name" (heap w !!! l) !! "project_id")|]; simpl;
    rewrite ?lookup_total_insert_eq, ?insert_insert_eq;
    (destruct (keyword _ _ _); [|done]); by destruct (service E _ _).
Qed.

End Runs.

Lemma single_key_singleton (key : string) (r : value) :
  single_key (VDict {[ key := r ]}) key r.
Proof.
  eexists. split; [done|]. split; [apply lookup_singleton_eq|].
  intros k Hk. by apply lookup_singleton_ne.
Qed.

Lemma wrapped_returned (key : string) (o : outcome value) (v : value) :
  wrapped key o = Returned v ↔ ∃ r, o = Returned r ∧ single_key v key r.
Proof.
  unfold wrapped. split.
  - destruct o as [r|e]; [|done]. intros [= <-]. exists r. split; [done|].
    apply single_key_singleton.
  - intros (r & -> & d & -> & Hr & Hother). do 2 f_equal.
    apply map_eq. intros k. destruct (decide (k = key)) as [->|Hk].
    + by rewrite lookup_singleton_eq.
    + rewrite lookup_singleton_ne by done. symmetry. by apply Hother.
Qed.

(** C3: whatever [_create_network], [_update_network] and [_show_network]
    return is a mapping with the single key ["network"], bound to exactly
    what the service call ([create_network], [update_network],
    [get_network]) returned; and they return whenever that call returns
    (for the last two, once [network["network"]["id"]] has been read). *)
Theorem network_methods_wrap_service_answer (E : env) (w : world) (v : value) :
  (∀ l,
     (_create_network E l w).1 = Returned v ↔
     ∃ r, service E (trace w)
            (Call NeutronService "create_network" []
                  (delete "name" (heap w !!! l))) = Returned r
          ∧ single_key v "network" r) ∧
  (∀ network l,
     (_update_network E network l w).1 = Returned v ↔
     ∃ i r, resource_id "network" network = Returned i
          ∧ service E (trace w)
              (Call NeutronService "update_network" [i]
                    (<["name" := VStr (random_name E (drawn w))]>
                       (heap w !!! l))) = Returned r
          ∧ single_key v "network" r) ∧
  (∀ network kw,
     (_show_network E network kw w).1 = Returned v ↔
     ∃ i r, resource_id "network" network = Returned i
          ∧ service E (trace w)
              (Call NeutronService "get_network" [i] kw) = Returned r
          ∧ single_key v "network" r).
Proof.
  split; [|split].
  - intros l. rewrite run_create_network. simpl. apply wrapped_returned.
  - intros network l. rewrite run_update_network. unfold updated.
    destruct (resource_id "network" network) as [i|e]; simpl.
    + rewrite wrapped_returned. split.
      * intros (r & ? & ?). by exists i, r.
      * intros (? & r & [= <-] & ? & ?). by exists r.
    + split; [done|]. by intros (? & ? & ? & _).
  - intros network kw. rewrite run_show_network.
    destruct (resource_id "network" network) as [i|e]; simpl.
    + rewrite wrapped_returned. split.
      * intros (r & ? & ?). by exists i, r.
      * intros (? & r & [= <-] & ? & ?). by exists r.
    + split; [done|]. by intros (? & ? & ? & _).
Qed.

Lemma network_methods_wrap_service_answer_witness :
  let d : gmap string value := {[ "name" := VStr "mine" ]} in
  let v := VDict {[ "network" := VDict {[ "id" := VStr "res-1" ]} ]} in
  (_create_network Fixture.E0 1%positive (Fixture.holding d)).1 = Returned v ∧
  (_update_network Fixture.E0 Fixture.net1 1%positive (Fixture.holding d)).1
    = Returned v ∧
  (_show_network Fixture.E0 Fixture.net1 ∅ Fixture.w0).1 = Returned v.
Proof.
  cbv zeta. split; [|split].
  - apply (network_methods_wrap_service_answer Fixture.E0).
    eexists. split; [reflexivity|]. apply single_key_singleton.
  - apply (network_methods_wrap_service_answer Fixture.E0).
    do 2 eexists. split; [reflexivity|]. split; [reflexivity|].
    apply single_key_singleton.
  - apply (network_methods_wrap_service_answer Fixture.E0).
    do 2 eexists. split; [reflexivity|]. split; [reflexivity|].
    apply single_key_singleton.
Defined.

Lemma updated_forwards (E : env) (kind meth : string) (resource : value)
    (l : loc) (w : world) :
  forwards_update E (updated E kind meth resource l w) w kind meth resource
    (heap w !!! l).
Proof.
  unfold forwards_update, updated.
  destruct (resource_id kind resource) as [i|e]; simpl; [|done].
  split; [done|]. eexists. split; [done|].
  split; [apply lookup_insert_eq|].
  intros k Hk. by apply lookup_insert_ne.
Qed.

(** C4: [_update_subnet], [_update_router], [_update_port] and
    [_update_security_group] each draw a fresh random name and forward the
    update with option ["name"] set to it, whatever ["name"] the caller
    supplied; the other options are forwarded as given. *)
Theorem update_methods_force_generated_name (E : env) (w : world) :
  (∀ subnet l,
     forwards_update E (_update_subnet E subnet l w) w
       "subnet" "update_subnet" subnet (heap w !!! l)) ∧
  (∀ router l,
     forwards_update E (_update_router E router l w) w
       "router" "update_router" router (heap w !!! l)) ∧
  (∀ port l,
     forwards_update E (_update_port E port l w) w
       "port" "update_port" port (heap w !!! l)) ∧
  (∀ security_group kw,
     forwards_update E (_update_security_group E security_group kw w) w
       "security_group" "update_security_group" security_group kw).
Proof.
  split; [|split; [|split]].
  - intros subnet l. rewrite run_update_subnet. apply updated_forwards.
  - intros router l. rewrite run_update_router. apply updated_forwards.
  - intros port l. rewrite run_update_port. apply updated_forwards.
  - intros security_group kw. rewrite run_update_security_group.
    unfold forwards_update.
    destruct (resource_id "security_group" security_group) as [i|e];
      simpl; [|done].
    split; [done|]. eexists. split; [done|].
    split; [apply lookup_insert_eq|].
    intros k Hk. by apply lookup_insert_ne.
Qed.

Lemma update_methods_force_generated_name_witness :
  let mine : gmap string value :=
    <["name" := VStr "mine"]> {[ "admin_state_up" := VBool false ]} in
  let port := VDict {[ "port" := VDict {[ "id" := VStr "p-1" ]} ]} in
  forwards_update Fixture.E0
    (_update_port Fixture.E0 port 1%positive (Fixture.holding mine))
    (Fixture.holding mine) "port" "update_port" port mine
  ∧ trace (_update_port Fixture.E0 port 1%positive (Fixture.holding mine)).2
    = [Call NeutronService "update_port" [VStr "p-1"]
         (<["name" := VStr "s_rally_a"]>
            {[ "admin_state_up" := VBool false ]})].
Proof.
  cbv zeta. split; [|vm_compute; reflexivity].
  pose proof (update_methods_force_generated_name Fixture.E0
                (Fixture.holding
                   (<["name" := VStr "mine"]>
                      {[ "admin_state_up" := VBool false ]})))
    as (_ & _ & H & _).
  exact (H (VDict {[ "port" := VDict {[ "id" := VStr "p-1" ]} ]}) 1%positive).
Defined.

(** C5: [_create_network] forwards the caller's options to [create_network]
    without any ["name"]; [_create_subnet] forwards to [create_subnet] the
    caller's options without any ["name"], with ["network_id"] bound to
    [network["network"]["id"]] and ["start_cidr"] bound to the [start_cidr]
    argument. *)
Theorem create_methods_drop_name_and_derive_network_id
    (E : env) (w : world) (l : loc) :
  (∃ kw,
     trace (_create_network E l w).2
       = (trace w ++ [Call NeutronService "create_network" [] kw])%list
     ∧ kw !! "name" = None
     ∧ ∀ k, k ≠ "name" -> kw !! k = (heap w !!! l) !! k) ∧
  (∀ network start_cidr i,
     resource_id "network" network = Returned i ->
     ∃ kw,
       trace (_create_subnet E network l start_cidr w).2
         = (trace w ++ [Call NeutronService "create_subnet" [] kw])%list
       ∧ kw !! "name" = None
       ∧ kw !! "network_id" = Some i
       ∧ kw !! "start_cidr" = Some start_cidr
       ∧ ∀ k, k ≠ "name" -> k ≠ "network_id" -> k ≠ "start_cidr" ->
              kw !! k = (heap w !!! l) !! k).
Proof.
  split.
  - rewrite run_create_network. simpl. eexists. split; [done|].
    split; [apply lookup_delete_eq|].
    intros k Hk. by apply lookup_delete_ne.
  - intros network start_cidr i Hid. rewrite run_create_subnet, Hid. simpl.
    eexists. split; [done|].
    split; [by rewrite !lookup_insert_ne, lookup_delete_eq|].
    split; [by rewrite lookup_insert_ne, lookup_insert_eq|].
    split; [apply lookup_insert_eq|].
    intros k ? ? ?. by rewrite !lookup_insert_ne, lookup_delete_ne.
Qed.

Lemma create_methods_drop_name_and_derive_network_id_witness :
  let mine : gmap string value :=
    <["name" := VStr "mine"]> {[ "ip_version" := VInt 4 ]} in
  resource_id "network" Fixture.net1 = Returned (VStr "net-1") ∧
  ∃ kw,
    trace (_create_subnet Fixture.E0 Fixture.net1 1%positive
             (VStr "10.2.0.0/24") (Fixture.holding mine)).2
      = [Call NeutronService "create_subnet" [] kw]
    ∧ kw !! "name" = None
    ∧ kw !! "network_id" = Some (VStr "net-1")
    ∧ kw !! "start_cidr" = Some (VStr "10.2.0.0/24")
    ∧ kw !! "ip_version" = Some (VInt 4).
Proof.
  cbv zeta. split; [reflexivity|].
  destruct (create_methods_drop_name_and_derive_network_id Fixture.E0
              (Fixture.holding
                 (<["name" := VStr "mine"]> {[ "ip_version" := VInt 4 ]}))
              1%positive) as [_ H].
  destruct (H Fixture.net1 (VStr "10.2.0.0/24") (VStr "net-1") eq_refl)
    as (kw & Htrace & Hname & Hnet & Hcidr & Hother).
  exists kw. repeat split; try assumption.
  rewrite Hother by done. reflexivity.
Defined.

Lemma router_args_no_name (d : gmap string value) :
  router_args d !! "name" = None.
Proof.
  unfold router_args. cbv zeta.
  destruct (delete "name" d !! "tenant_id") as [t|];
    [destruct (delete "name" d !! "project_id")|];
    rewrite ?lookup_insert_ne, ?lookup_delete_ne by done;
    apply lookup_delete_eq.
Qed.

(** C9: the option dictionaries received by reference are changed in
    place.  After [_create_subnet] the caller's dictionary has lost
    ["name"] and holds ["network_id"] and ["start_cidr"]; after
    [_update_network] it holds the generated ["name"]; after
    [_create_router] it has lost ["name"] and, when it had ["tenant_id"]
    but no ["project_id"], holds the same value under ["project_id"]
    instead of ["tenant_id"].  No other dictionary of the store is
    touched.  The dictionary the caller owns then differs from the one
    passed in as soon as one of these changes is not idle: for
    [_create_subnet] and [_create_router] when a ["name"] was supplied, for
    [_update_network] unless the dictionary already held the generated
    name. *)
Theorem methods_mutate_caller_dictionary (E : env) (w : world) (l : loc) :
  let d := heap w !!! l in
  (∀ network start_cidr i,
     resource_id "network" network = Returned i ->
     heap (_create_subnet E network l start_cidr w).2
       = <[l := <["start_cidr" := start_cidr]>
                  (<["network_id" := i]> (delete "name" d))]> (heap w)) ∧
  (∀ network,
     heap (_update_network E network l w).2
       = <[l := <["name" := VStr (random_name E (drawn w))]> d]> (heap w)) ∧
  (∀ external_gw,
     heap (_create_router E l external_gw w).2
       = <[l := router_args d]> (heap w)) ∧
  (∀ t, d !! "tenant_id" = Some t -> d !! "project_id" = None ->
     router_args d = <["project_id" := t]> (delete "tenant_id" (delete "name" d))) ∧
  (d !! "tenant_id" = None ∨ is_Some (d !! "project_id") ->
     router_args d = delete "name" d) ∧
  (is_Some (d !! "name") ->
     router_args d ≠ d ∧
     ∀ start_cidr i,
       <["start_cidr" := start_cidr]>
         (<["network_id" := i]> (delete "name" d)) ≠ d) ∧
  (d !! "name" ≠ Some (VStr (random_name E (drawn w))) ->
     <["name" := VStr (random_name E (drawn w))]> d ≠ d).
Proof.
  cbv zeta. split; [|split; [|split; [|split; [|split; [|split]]]]].
  - intros network start_cidr i Hid. by rewrite run_create_subnet, Hid.
  - intros network. rewrite run_update_network. unfold updated.
    by destruct (resource_id _ _).
  - intros external_gw. rewrite run_create_router. cbv zeta.
    by destruct (keyword _ _ _).
  - intros t Ht Hp. unfold router_args. cbv zeta.
    by rewrite !lookup_delete_ne, Ht, Hp.
  - intros H. unfold router_args. cbv zeta.
    rewrite !lookup_delete_ne by done.
    destruct H as [-> | [p ->]]; [done|]. by destruct (_ !! "tenant_id").
  - intros [n Hn]. split.
    + intros Heq. pose proof (router_args_no_name (heap w !!! l)) as Hr.
      rewrite Heq in Hr. congruence.
    + intros start_cidr i Heq.
      assert (Hl : (<["start_cidr" := start_cidr]>
                      (<["network_id" := i]> (delete "name" (heap w !!! l))))
                     !! "name" = None)
        by by rewrite !lookup_insert_ne, lookup_delete_eq.
      rewrite Heq in Hl. congruence.
  - intros Hn Heq. apply Hn. rewrite <- Heq. apply lookup_insert_eq.
Qed.

Lemma methods_mutate_caller_dictionary_witness :
  let mine : gmap string value :=
    <["name" := VStr "mine"]> {[ "tenant_id" := VStr "t-1" ]} in
  heap (_create_router Fixture.E0 1%positive (VBool false)
          (Fixture.holding mine)).2
    = {[ 1%positive := {[ "project_id" := VStr "t-1" ]} ]}
  ∧ heap (_create_subnet Fixture.E0 Fixture.net1 1%positive VNone
            (Fixture.holding mine)).2
    = {[ 1%positive :=
           <["tenant_id" := VStr "t-1"]>
             (<["network_id" := VStr "net-1"]> {[ "start_cidr" := VNone ]}) ]}
  ∧ router_args mine ≠ mine.
Proof.
  cbv zeta.
  destruct (methods_mutate_caller_dictionary Fixture.E0
              (Fixture.holding
                 (<["name" := VStr "mine"]> {[ "tenant_id" := VStr "t-1" ]}))
              1%positive) as (Hsubnet & _ & Hrouter & _ & _ & Hdiff & _).
  split; [|split].
  - etransitivity; [apply Hrouter|]. vm_compute. reflexivity.
  - etransitivity; [apply (Hsubnet _ _ (VStr "net-1")); reflexivity|].
    vm_compute. reflexivity.
  - apply Hdiff. by eexists.
Defined.

(** C6: [_create_lb_pool] forwards to [create_pool] a body
    [{"pool": args}] in which every key of [pool_create_args] keeps the
    caller's value, and otherwise [lb_method] is "ROUND_ROBIN", [protocol]
    is "HTTP", [subnet_id] is the given subnet id and [name] is a generated
    random name; [_create_v1_healthmonitor] forwards to
    [create_health_monitor] a body [{"health_monitor": args}] in which the
    caller's keys win over [type] "PING", [delay] 20, [max_retries] 3 and
    [timeout] 10.  Neither body has any further key. *)
Theorem lbaas_v1_bodies_default_and_override (E : env) (w : world) :
  (∀ subnet_id pool_create_args,
     ∃ args,
       trace (_create_lb_pool E subnet_id pool_create_args w).2
         = (trace w ++ [Call NeutronClient "create_pool"
                          [VDict {[ "pool" := VDict args ]}] ∅])%list
       ∧ (∀ k v, pool_create_args !! k = Some v -> args !! k = Some v)
       ∧ (∀ k, pool_create_args !! k = None ->
            args !! k =
              if decide (k = "lb_method") then Some (VStr "ROUND_ROBIN")
              else if decide (k = "protocol") then Some (VStr "HTTP")
              else if decide (k = "name")
                   then Some (VStr (random_name E (drawn w)))
              else if decide (k = "subnet_id") then Some subnet_id
              else None)) ∧
  (∀ healthmonitor_create_args,
     ∃ args,
       trace (_create_v1_healthmonitor E healthmonitor_create_args w).2
         = (trace w ++ [Call NeutronClient "create_health_monitor"
                          [VDict {[ "health_monitor" := VDict args ]}] ∅])%list
       ∧ (∀ k v, healthmonitor_create_args !! k = Some v ->
            args !! k = Some v)
       ∧ (∀ k, healthmonitor_create_args !! k = None ->
            args !! k =
              if decide (k = "type") then Some (VStr "PING")
              else if decide (k = "delay") then Some (VInt 20)
              else if decide (k = "max_retries") then Some (VInt 3)
              else if decide (k = "timeout") then Some (VInt 10)
              else None)).
Proof.
  split.
  - intros subnet_id pool_create_args. unfold _create_lb_pool. run.
    eexists. split; [done|]. split.
    + intros k v Hk. by apply lookup_union_Some_l.
    + intros k Hk. rewrite lookup_union_r by done.
      rewrite !lookup_insert, lookup_singleton.
      unfold LB_METHOD, LB_PROTOCOL. by repeat case_decide; simplify_eq.
  - intros healthmonitor_create_args. unfold _create_v1_healthmonitor. run.
    eexists. split; [done|]. split.
    + intros k v Hk. by apply lookup_union_Some_l.
    + intros k Hk. rewrite lookup_union_r by done.
      rewrite !lookup_insert, lookup_singleton.
      unfold HM_TYPE, HM_DELAY, HM_MAX_RETRIES, HM_TIMEOUT.
      by repeat case_decide; simplify_eq.
Qed.

Lemma lbaas_v1_bodies_default_and_override_witness :
  let mine : gmap string value :=
    <["protocol" := VStr "TCP"]> {[ "description" := VStr "web" ]} in
  (∃ args,
     trace (_create_lb_pool Fixture.E0 (VStr "sub-1") mine Fixture.w0).2
       = [Call NeutronClient "create_pool"
            [VDict {[ "pool" := VDict args ]}] ∅]
     ∧ args !! "protocol" = Some (VStr "TCP")
     ∧ args !! "description" = Some (VStr "web")
     ∧ args !! "lb_method" = Some (VStr "ROUND_ROBIN")
     ∧ args !! "name" = Some (VStr "s_rally_a")
     ∧ args !! "subnet_id" = Some (VStr "sub-1")) ∧
  (∃ args,
     trace (_create_v1_healthmonitor Fixture.E0 {[ "delay" := VInt 5 ]}
              Fixture.w0).2
       = [Call NeutronClient "create_health_monitor"
            [VDict {[ "health_monitor" := VDict args ]}] ∅]
     ∧ args !! "delay" = Some (VInt 5)
     ∧ args !! "type" = Some (VStr "PING")
     ∧ args !! "max_retries" = Some (VInt 3)
     ∧ args !! "timeout" = Some (VInt 10)).
Proof.
  cbv zeta.
  destruct (lbaas_v1_bodies_default_and_override Fixture.E0 Fixture.w0)
    as [Hpool Hhm].
  split.
  - destruct (Hpool (VStr "sub-1")
                (<["protocol" := VStr "TCP"]> {[ "description" := VStr "web" ]}))
      as (args & Htrace & Hmine & Hdflt).
    exists args. split; [exact Htrace|].
    split; [by apply Hmine|]. split; [by apply Hmine|].
    split; [by rewrite Hdflt|]. split; by rewrite Hdflt.
  - destruct (Hhm {[ "delay" := VInt 5 ]}) as (args & Htrace & Hmine & Hdflt).
    exists args. split; [exact Htrace|].
    split; [by apply Hmine|].
    split; [by rewrite Hdflt|]. split; by rewrite Hdflt.
Defined.

(** C10: [_update_bgpvpn] never forwards a name chosen by the caller: when
    [update_name] is true or [kwargs] has a ["name"], the forwarded body
    binds ["name"] to a generated random name; otherwise the body has no
    ["name"] at all.  The other keys of [kwargs] are forwarded as given. *)
Theorem update_bgpvpn_name_absent_or_generated
    (E : env) (bgpvpn : value) (update_name : bool)
    (kwargs : gmap string value) (w : world) (i : value) :
  resource_id "bgpvpn" bgpvpn = Returned i ->
  ∃ body,
    trace (_update_bgpvpn E bgpvpn update_name kwargs w).2
      = (trace w ++ [Call AdminNeutronClient "update_bgpvpn"
                       [i; VDict {[ "bgpvpn" := VDict body ]}] ∅])%list
    ∧ (∀ k, k ≠ "name" -> body !! k = kwargs !! k)
    ∧ (update_name = true ∨ is_Some (kwargs !! "name") ->
         body !! "name" = Some (VStr (random_name E (drawn w))))
    ∧ (update_name = false -> kwargs !! "name" = None ->
         body !! "name" = None).
Proof.
  intros Hid. unfold _update_bgpvpn. run.
  destruct (update_name || bool_decide (is_Some (kwargs !! "name")))
    eqn:Hcond; simpl; rewrite Hid; simpl.
  - eexists. split; [done|].
    split; [intros k Hk; by apply lookup_insert_ne|].
    split; [intros _; apply lookup_insert_eq|].
    intros -> Hnone.
    apply orb_true_iff in Hcond as [? | Hc%bool_decide_eq_true]; [done|].
    rewrite Hnone in Hc. by destruct Hc.
  - apply orb_false_iff in Hcond as [-> Hname].
    rewrite bool_decide_eq_false in Hname.
    eexists. split; [done|]. split; [done|].
    split; [by intros [?|?]|]. done.
Qed.

Lemma update_bgpvpn_name_absent_or_generated_witness :
  let vpn := VDict {[ "bgpvpn" := VDict {[ "id" := VStr "vpn-1" ]} ]} in
  let mine : gmap string value := {[ "name" := VStr "mine" ]} in
  resource_id "bgpvpn" vpn = Returned (VStr "vpn-1") ∧
  ∃ body,
    trace (_update_bgpvpn Fixture.E0 vpn false mine Fixture.w0).2
      = [Call AdminNeutronClient "update_bgpvpn"
           [VStr "vpn-1"; VDict {[ "bgpvpn" := VDict body ]}] ∅]
    ∧ body !! "name" = Some (VStr "s_rally_a").
Proof.
  cbv zeta.
  assert (Hid : resource_id "bgpvpn"
                  (VDict {[ "bgpvpn" := VDict {[ "id" := VStr "vpn-1" ]} ]})
                = Returned (VStr "vpn-1")) by reflexivity.
  split; [exact Hid|].
  destruct (update_bgpvpn_name_absent_or_generated Fixture.E0 _
              false {[ "name" := VStr "mine" ]} Fixture.w0 _ Hid)
    as (body & Htrace & _ & Hname & _).
  exists body. split; [exact Htrace|].
  apply Hname. right. by eexists.
Defined.

(** C8: when the tenant context has a ["networks"] list,
    [NeutronBaseScenario._get_or_create_network] returns its element at
    index [iteration mod length] and calls nothing; when that list is
    empty it fails with [ZeroDivisionError], again without creating a
    network. *)
Theorem get_or_create_network_selects_by_iteration
    (E : env) (ctx : context) (network_create_args : gmap string value)
    (w : world) (networks : list value) :
  tenant ctx !! "networks" = Some (VList networks) ->
  (networks ≠ [] ->
     ∃ net,
       networks !! Z.to_nat (iteration ctx `mod` Z.of_nat (length networks))
         = Some net
       ∧ NeutronBaseScenario._get_or_create_network E ctx
           network_create_args w = (Returned net, w)) ∧
  (networks = [] ->
     NeutronBaseScenario._get_or_create_network E ctx network_create_args w
       = (Raised ZeroDivisionError, w)).
Proof.
  intros Hnets. unfold NeutronBaseScenario._get_or_create_network.
  rewrite Hnets. run. unfold py_mod. split.
  - intros Hne.
    assert (0 < length networks) by (destruct networks; simpl; [done|lia]).
    pose proof (Z.mod_pos_bound (iteration ctx) (Z.of_nat (length networks))
                  ltac:(lia)) as [Hlo Hhi].
    destruct (lookup_lt_is_Some_2 networks
                (Z.to_nat (iteration ctx `mod` Z.of_nat (length networks)))
                ltac:(lia)) as [net Hnet].
    exists net. split; [done|].
    rewrite decide_False by lia. simpl.
    repeat case_decide; try lia. by rewrite Hnet.
  - by intros ->.
Qed.

Lemma get_or_create_network_selects_by_iteration_witness :
  let nets := [VStr "net-a"; VStr "net-b"; VStr "net-c"] in
  let ctx := Context {[ "networks" := VList nets ]} 7 in
  NeutronBaseScenario._get_or_create_network Fixture.E0 ctx ∅ Fixture.w0
    = (Returned (VStr "net-b"), Fixture.w0) ∧
  NeutronBaseScenario._get_or_create_network Fixture.E0
    (Context {[ "networks" := VList [] ]} 7) ∅ Fixture.w0
    = (Raised ZeroDivisionError, Fixture.w0).
Proof.
  cbv zeta. split.
  - assert (Hnets : tenant (Context {[ "networks" :=
                       VList [VStr "net-a"; VStr "net-b"; VStr "net-c"] ]} 7)
                      !! "networks"
                    = Some (VList [VStr "net-a"; VStr "net-b"; VStr "net-c"]))
      by reflexivity.
    destruct (get_or_create_network_selects_by_iteration Fixture.E0 _
                ∅ Fixture.w0 _ Hnets) as [H _].
    destruct (H ltac:(done)) as (net & Hnet & Hrun).
    rewrite Hrun. by injection Hnet as <-.
  - assert (Hnets : tenant (Context {[ "networks" := VList [] ]} 7)
                      !! "networks" = Some (VList [])) by reflexivity.
    destruct (get_or_create_network_selects_by_iteration Fixture.E0 _
                ∅ Fixture.w0 _ Hnets) as [_ H].
    by apply H.
Defined.

(** *** Polling *)

Section Polling.
Variable E : env.
Variable ready_statuses : list string.
Variable status_attr : string.
Variable update : value -> M value.

Let ready := utils.is_ready ready_statuses status_attr.
Let poll n := utils.poll E n ready_statuses status_attr update.

Lemma poll_skips_refreshes (k n : nat) (r r' : value) (w w' : world) :
  refreshes update ready k r w r' w' ->
  poll (k + n) r w = poll n r' w'.
Proof.
  induction 1 as [|k r w r1 w1 r' w' Hup Hnot _ IH]; [done|].
  rewrite <- IH. subst poll ready. simpl. unfold bind at 1.
  by rewrite Hup, Hnot.
Qed.

Lemma poll_times_out (k : nat) (r r' : value) (w w' : world) :
  refreshes update ready k r w r' w' ->
  poll k r w = (Raised (TimeoutException E), w').
Proof.
  intros H. rewrite <- (Nat.add_0_r k) at 1.
  by rewrite (poll_skips_refreshes _ 0 _ _ _ _ H).
Qed.

Lemma poll_stops_when_ready (k n : nat) (r r' v : value) (w w' w'' : world) :
  refreshes update ready k r w r' w' ->
  update r' w' = (Returned v, w'') ->
  ready v = true ->
  poll (k + S n) r w = (Returned v, w'').
Proof.
  intros H Hup Hready. rewrite (poll_skips_refreshes _ _ _ _ _ _ H).
  subst poll ready. simpl. unfold bind. by rewrite Hup, Hready.
Qed.

Lemma poll_stops_on_error (k n : nat) (r r' : value) (e : exn)
    (w w' w'' : world) :
  refreshes update ready k r w r' w' ->
  update r' w' = (Raised e, w'') ->
  poll (k + S n) r w = (Raised e, w'').
Proof.
  intros H Hup. rewrite (poll_skips_refreshes _ _ _ _ _ _ H).
  subst poll. simpl. unfold bind. by rewrite Hup.
Qed.

Lemma poll_returns_ready (n : nat) (r v : value) (w w' : world) :
  poll n r w = (Returned v, w') -> ready v = true.
Proof.
  subst poll ready. revert r w.
  induction n as [|n IH]; intros r w; simpl; [done|].
  unfold bind at 1. destruct (update r w) as [[r1|e] w1]; [|done].
  destruct (utils.is_ready ready_statuses status_attr r1) eqn:Hr.
  - by intros [= <- <-].
  - apply IH.
Qed.

End Polling.

(** C7: [_create_lbaasv2_loadbalancer] asks [create_loadbalancer] for a
    load balancer whose [name] is a generated random name and whose
    [vip_subnet_id] is the given subnet id, the keys of [lb_create_args]
    winning over both.  It then hands the ["loadbalancer"] member of the
    answer to the wait-for-status utility, which refreshes it with
    [update_loadbalancer_resource] until [provisioning_status] is "ACTIVE"
    or the configured timeout has elapsed, one refresh per configured poll
    interval.  The load balancer of the first refresh that shows "ACTIVE"
    is returned as it is, unwrapped; when the timeout elapses first, the
    utility's timeout error is raised; an error of a refresh ends the
    wait. *)
Theorem create_lbaasv2_loadbalancer_waits_for_active
    (E : env) (subnet_id : value) (lb_create_args : gmap string value)
    (w : world) :
  let args : gmap string value :=
    lb_create_args ∪ (<["name" := VStr (random_name E (drawn w))]>
                        {[ "vip_subnet_id" := subnet_id ]}) in
  let c := Call NeutronClient "create_loadbalancer"
             [VDict {[ "loadbalancer" := VDict args ]}] ∅ in
  let w1 := World (heap w) (trace w ++ [c]) (S (drawn w)) in
  let budget :=
    S (neutron_create_loadbalancer_timeout (CONF E)
       / Pos.to_nat (neutron_create_loadbalancer_poll_interval (CONF E))) in
  let update := update_loadbalancer_resource E in
  let ready := utils.is_ready ["ACTIVE"] "provisioning_status" in
  let run := _create_lbaasv2_loadbalancer E subnet_id lb_create_args w in
  (∀ k v, lb_create_args !! k = Some v -> args !! k = Some v) ∧
  (∀ k, lb_create_args !! k = None ->
     args !! k =
       if decide (k = "name") then Some (VStr (random_name E (drawn w)))
       else if decide (k = "vip_subnet_id") then Some subnet_id
       else None) ∧
  (∀ e, service E (trace w) c = Raised e -> run = (Raised e, w1)) ∧
  (∀ resp lb0,
     service E (trace w) c = Returned resp ->
     subscript resp "loadbalancer" = Returned lb0 ->
     (∀ k lb w' v w'',
        k < budget ->
        refreshes update ready k lb0 w1 lb w' ->
        update lb w' = (Returned v, w'') ->
        ready v = true ->
        run = (Returned v, w'')) ∧
     (∀ lb w',
        refreshes update ready budget lb0 w1 lb w' ->
        run = (Raised (TimeoutException E), w')) ∧
     (∀ k lb w' e w'',
        k < budget ->
        refreshes update ready k lb0 w1 lb w' ->
        update lb w' = (Raised e, w'') ->
        run = (Raised e, w'')) ∧
     (∀ v w', run = (Returned v, w') -> ready v = true)).
Proof.
  cbv zeta. split; [|split; [|split]].
  - intros k v Hk. by apply lookup_union_Some_l.
  - intros k Hk. rewrite lookup_union_r by done.
    rewrite lookup_insert, lookup_singleton.
    by repeat case_decide; simplify_eq.
  - intros e He. unfold _create_lbaasv2_loadbalancer, wrap. run.
    by rewrite He.
  - intros resp lb0 Hresp Hlb0.
    assert (Hrun : _create_lbaasv2_loadbalancer E subnet_id lb_create_args w
              = utils.poll E
                  (S (neutron_create_loadbalancer_timeout (CONF E)
                      / Pos.to_nat
                          (neutron_create_loadbalancer_poll_interval (CONF E))))
                  ["ACTIVE"] "provisioning_status"
                  (update_loadbalancer_resource E) lb0
                  (World (heap w)
                     (trace w ++
                        [Call NeutronClient "create_loadbalancer"
                           [VDict {[ "loadbalancer" := VDict
                              (lb_create_args ∪
                                 (<["name" := VStr (random_name E (drawn w))]>
                                    {[ "vip_subnet_id" := subnet_id ]})) ]}] ∅])
                     (S (drawn w)))).
    { unfold _create_lbaasv2_loadbalancer, utils.wait_for_status, wrap.
      unfold bind at 1, generate_random_name. simpl.
      unfold bind at 1, invoke. simpl. rewrite Hresp.
      unfold bind at 1, lift. by rewrite Hlb0. }
    rewrite Hrun. clear Hrun.
    set (q := neutron_create_loadbalancer_timeout (CONF E)
              / Pos.to_nat (neutron_create_loadbalancer_poll_interval (CONF E))).
    split; [|split; [|split]].
    + intros k lb w' v w'' Hk Hrefr Hup Hready.
      replace (S q) with (k + S (q - k)) by lia.
      by eapply poll_stops_when_ready.
    + intros lb w' Hrefr. by eapply poll_times_out.
    + intros k lb w' e w'' Hk Hrefr Hup.
      replace (S q) with (k + S (q - k)) by lia.
      by eapply poll_stops_on_error.
    + intros v w'. apply poll_returns_ready.
Qed.

Lemma create_lbaasv2_loadbalancer_waits_for_active_witness :
  let create :=
    Call NeutronClient "create_loadbalancer"
      [VDict {[ "loadbalancer" := VDict
         (<["name" := VStr "s_rally_a"]>
            {[ "vip_subnet_id" := VStr "sub-1" ]}) ]}] ∅ in
  let show := Call NeutronClient "show_loadbalancer" [VStr "lb-1"] ∅ in
  _create_lbaasv2_loadbalancer Fixture.E0 (VStr "sub-1") ∅ Fixture.w0
    = (Returned (Fixture.lb_in "ACTIVE"),
       World ∅ [create; show; show; show] 1) ∧
  _create_lbaasv2_loadbalancer Fixture.E_short (VStr "sub-1") ∅ Fixture.w0
    = (Raised (TimeoutException Fixture.E_short),
       World ∅ [create; show; show] 1).
Proof.
  cbv zeta. split.
  - destruct (create_lbaasv2_loadbalancer_waits_for_active
                Fixture.E0 (VStr "sub-1") ∅ Fixture.w0) as (_ & _ & _ & H).
    destruct (H (VDict {[ "loadbalancer" := Fixture.lb_in "PENDING_CREATE" ]})
                (Fixture.lb_in "PENDING_CREATE"))
      as (Hactive & _); [reflexivity|reflexivity|].
    etransitivity.
    + eapply (Hactive 2).
      * vm_compute. lia.
      * eapply refreshes_more; [reflexivity|reflexivity|].
        eapply refreshes_more; [reflexivity|reflexivity|].
        apply refreshes_none.
      * reflexivity.
      * reflexivity.
    + vm_compute. reflexivity.
  - destruct (create_lbaasv2_loadbalancer_waits_for_active
                Fixture.E_short (VStr "sub-1") ∅ Fixture.w0)
      as (_ & _ & _ & H).
    destruct (H (VDict {[ "loadbalancer" := Fixture.lb_in "PENDING_CREATE" ]})
                (Fixture.lb_in "PENDING_CREATE"))
      as (_ & Htimeout & _); [reflexivity|reflexivity|].
    etransitivity.
    + eapply Htimeout.
      eapply refreshes_more; [reflexivity|reflexivity|].
      eapply refreshes_more; [reflexivity|reflexivity|].
      apply refreshes_none.
    + vm_compute. reflexivity.
Defined.

(** ** Further properties of the class *)

(** *** Creating several subnets from one dictionary *)

Lemma subnet_kwargs_idempotent (i sc : value) (d : gmap string value) :
  subnet_kwargs i sc (subnet_kwargs i sc d) = subnet_kwargs i sc d.
Proof.
  unfold subnet_kwargs. apply map_eq. intros k.
  rewrite !lookup_insert, !lookup_delete, !lookup_insert, !lookup_delete.
  by repeat case_decide; simplify_eq.
Qed.

Lemma subnet_kwargs_not_empty (i sc : value) (d : gmap string value) :
  size (subnet_kwargs i sc d) ≠ 0.
Proof.
  intros Hsize%map_size_empty_iff.
  assert (H : subnet_kwargs i sc d !! "start_cidr" = Some sc)
    by apply lookup_insert_eq.
  by rewrite Hsize in H.
Qed.

Arguments or_new_dict : simpl never.

Lemma run_or_new_dict_kept (l : loc) (w : world) :
  size (heap w !!! l) ≠ 0 -> or_new_dict (Some l) w = (Returned l, w).
Proof. intros H. unfold or_new_dict. run. by rewrite decide_False. Qed.

Section Subnets.
Variable E : env.
Variable network : value.
Variable l : loc.
Variable sc i : value.
Hypothesis Hid : resource_id "network" network = Returned i.

Lemma create_subnets_steady (kw : gmap string value) (n : nat) (w : world) :
  heap w !! l = Some kw ->
  subnet_kwargs i sc kw = kw ->
  always_returns E (Call NeutronService "create_subnet" [] kw) ->
  ∃ rs,
    times n (l' <- or_new_dict (Some l) ;; _create_subnet E network l' sc) w
      = (Returned rs,
         World (heap w)
               (trace w ++ replicate n (Call NeutronService "create_subnet" [] kw))
               (drawn w))
    ∧ length rs = n
    ∧ Forall (fun v => ∃ r, v = VDict {[ "subnet" := r ]}) rs.
Proof.
  intros Hl Hfix Hret. revert w Hl.
  induction n as [|n IH]; intros w Hl.
  - exists []. simpl. unfold ret. rewrite app_nil_r. by destruct w.
  - assert (Hd : heap w !!! l = kw) by by rewrite lookup_total_alt, Hl.
    destruct (Hret (trace w)) as [r Hr].
    set (w1 := World (heap w)
                 (trace w ++ [Call NeutronService "create_subnet" [] kw])
                 (drawn w)).
    destruct (IH w1 Hl) as (rs & Hrun & Hlen & Hall).
    exists (VDict {[ "subnet" := r ]} :: rs).
    split; [|split; [by simpl; f_equal | by constructor; [eexists|]]].
    cbn [times]. unfold bind at 1. unfold bind at 1.
    rewrite run_or_new_dict_kept
      by (rewrite Hd, <- Hfix; apply subnet_kwargs_not_empty).
    rewrite run_create_subnet, Hid. cbv zeta.
    fold (subnet_kwargs i sc (heap w !!! l)). rewrite Hd, Hfix, Hr. simpl.
    unfold after. rewrite (insert_id _ _ _ Hl). fold w1.
    unfold bind at 1. rewrite Hrun. unfold ret. simpl.
    by rewrite <- app_assoc.
Qed.

End Subnets.

(** X1: given a non-empty option dictionary by reference, [_create_subnets]
    uses that one dictionary for every subnet: all [subnets_per_network]
    calls of [create_subnet] carry the same options (the caller's without
    ["name"], with ["network_id"] and ["start_cidr"]), the caller's
    dictionary is left holding exactly these options, and the result lists
    one [{"subnet": ...}] per call.  With a count that is not positive
    nothing is called and the list is empty. *)
Theorem create_subnets_reuses_caller_dictionary
    (E : env) (network : value) (l : loc) (sc i : value)
    (subnets_per_network : Z) (w : world) :
  resource_id "network" network = Returned i ->
  size (heap w !!! l) ≠ 0 ->
  let kw := subnet_kwargs i sc (heap w !!! l) in
  let c := Call NeutronService "create_subnet" [] kw in
  always_returns E c ->
  ((0 < subnets_per_network)%Z ->
   ∃ rs,
     _create_subnets E network (Some l) sc subnets_per_network w
       = (Returned (VList rs),
          World (<[l := kw]> (heap w))
                (trace w ++ replicate (Z.to_nat subnets_per_network) c)
                (drawn w))
     ∧ length rs = Z.to_nat subnets_per_network
     ∧ Forall (fun v => ∃ r, v = VDict {[ "subnet" := r ]}) rs) ∧
  ((subnets_per_network <= 0)%Z ->
   _create_subnets E network (Some l) sc subnets_per_network w
     = (Returned (VList []), w)).
Proof.
  intros Hid Hsize kw c Hret. unfold _create_subnets. split.
  - intros Hpos.
    destruct (Z.to_nat subnets_per_network) as [|n] eqn:Hn; [lia|].
    destruct (Hret (trace w)) as [r Hr].
    set (w1 := World (<[l := kw]> (heap w)) (trace w ++ [c]) (drawn w)).
    destruct (create_subnets_steady E network l sc i Hid kw n w1)
      as (rs & Hrun & Hlen & Hall).
    { apply lookup_insert_eq. }
    { apply subnet_kwargs_idempotent. }
    { exact Hret. }
    exists (VDict {[ "subnet" := r ]} :: rs).
    split; [|split; [by simpl; f_equal | by constructor; [eexists|]]].
    unfold bind at 1. cbn [times]. unfold bind at 1. unfold bind at 1.
    rewrite run_or_new_dict_kept by done.
    rewrite run_create_subnet, Hid. cbv zeta.
    fold (subnet_kwargs i sc (heap w !!! l)). fold kw. fold c.
    rewrite Hr. simpl. unfold after. fold w1.
    unfold bind at 1. rewrite Hrun. unfold ret. simpl.
    by rewrite <- app_assoc.
  - intros Hle. by replace (Z.to_nat subnets_per_network) with 0 by lia.
Qed.

Lemma create_subnets_reuses_caller_dictionary_witness :
  let mine : gmap string value := {[ "name" := VStr "mine" ]} in
  let kw : gmap string value :=
    <["start_cidr" := VStr "10.2.0.0/24"]> {[ "network_id" := VStr "net-1" ]} in
  let c := Call NeutronService "create_subnet" [] kw in
  ∃ rs,
    _create_subnets Fixture.E0 Fixture.net1 (Some 1%positive)
      (VStr "10.2.0.0/24") 3 (Fixture.holding mine)
      = (Returned (VList rs), World {[ 1%positive := kw ]} [c; c; c] 0)
    ∧ length rs = 3.
Proof.
  cbv zeta.
  assert (Hid : resource_id "network" Fixture.net1 = Returned (VStr "net-1"))
    by reflexivity.
  assert (Hsize : size (heap (Fixture.holding {[ "name" := VStr "mine" ]})
                          !!! 1%positive) ≠ 0) by (vm_compute; lia).
  destruct (create_subnets_reuses_caller_dictionary Fixture.E0 Fixture.net1
              1%positive (VStr "10.2.0.0/24") (VStr "net-1") 3
              (Fixture.holding {[ "name" := VStr "mine" ]}) Hid Hsize)
    as [H _].
  { intros history. eexists. reflexivity. }
  destruct (H ltac:(lia)) as (rs & Hrun & Hlen & _).
  exists rs. split; [|exact Hlen].
  etransitivity; [exact Hrun|]. reflexivity.
Defined.

(** *** Option dictionaries that are absent or empty *)

Lemma times_keeps_store {A} (m : M A) (P : world -> Prop) :
  (∀ w, P w -> P (m w).2 ∧ heap w ⊆ heap (m w).2) ->
  ∀ n w, P w -> heap w ⊆ heap (times n m w).2.
Proof.
  intros Hstep. induction n as [|n IH]; intros w HP; [done|].
  cbn [times]. unfold bind at 1.
  destruct (Hstep w HP) as [HP1 Hsub].
  destruct (m w) as [[x|e] w1]; simpl in *; [|done].
  unfold bind at 1. specialize (IH w1 HP1).
  destruct (times n m w1) as [[xs|e] w2]; simpl in *; by etransitivity.
Qed.

Lemma new_subnet_dictionary_extends_store (E : env) (network : value)
    (sc : value) (w : world) :
  heap w ⊆ heap ((l <- new_dict ;; _create_subnet E network l sc) w).2.
Proof.
  unfold bind at 1, new_dict. rewrite run_create_subnet. cbv zeta.
  assert (Hfresh : heap w !! fresh (dom (heap w)) = None)
    by (apply not_elem_of_dom, is_fresh).
  destruct (resource_id "network" network); simpl;
    rewrite insert_insert_eq; by apply insert_subseteq.
Qed.

(** X2: when no option dictionary is given, or the one given is empty,
    [_create_subnets] works on a new dictionary for each subnet, so every
    dictionary the store held before the call is unchanged after it; the
    caller's empty dictionary is still empty. *)
Theorem create_subnets_spares_empty_dictionary
    (E : env) (network : value) (subnet_create_args : option loc)
    (sc : value) (subnets_per_network : Z) (w : world) :
  (subnet_create_args = None ∨
   ∃ l, subnet_create_args = Some l ∧ heap w !! l = Some ∅) ->
  heap w ⊆
    heap (_create_subnets E network subnet_create_args sc
            subnets_per_network w).2.
Proof.
  intros Hargs. unfold _create_subnets. unfold bind at 1.
  set (P := fun w' : world =>
              subnet_create_args = None ∨
              ∃ l, subnet_create_args = Some l ∧ heap w' !! l = Some ∅).
  assert (Hstep : ∀ w', P w' ->
            P ((l <- or_new_dict subnet_create_args ;;
                _create_subnet E network l sc) w').2
            ∧ heap w' ⊆ heap ((l <- or_new_dict subnet_create_args ;;
                               _create_subnet E network l sc) w').2).
  { intros w' HP.
    assert (Hnew : (l <- or_new_dict subnet_create_args ;;
                    _create_subnet E network l sc) w'
                   = (l <- new_dict ;; _create_subnet E network l sc) w').
    { assert (Hor : or_new_dict subnet_create_args w' = new_dict w').
      { destruct HP as [-> | (l & -> & Hl)]; [done|].
        unfold or_new_dict, bind, load. simpl.
        by rewrite lookup_total_alt, Hl. }
      unfold bind. by rewrite Hor. }
    rewrite Hnew.
    pose proof (new_subnet_dictionary_extends_store E network sc w') as Hsub.
    split; [|done].
    destruct HP as [-> | (l & -> & Hl)]; [by left|right].
    exists l. split; [done|]. by eapply lookup_weaken. }
  pose proof (times_keeps_store _ P Hstep (Z.to_nat subnets_per_network) w Hargs)
    as Hsub.
  by destruct (times _ _ w) as [[rs|e] w'].
Qed.

Lemma create_subnets_spares_empty_dictionary_witness :
  heap (_create_subnets Fixture.E0 Fixture.net1 (Some 1%positive) VNone 2
          (Fixture.holding ∅)).2 !! 1%positive = Some ∅.
Proof.
  eapply lookup_weaken;
    [|apply (create_subnets_spares_empty_dictionary Fixture.E0 Fixture.net1
               (Some 1%positive) VNone 2 (Fixture.holding ∅));
      right; exists 1%positive; split; reflexivity].
  reflexivity.
Defined.

(** *** One pool per subnet *)






(** *** Keywords given twice *)

Lemma router_args_other (d : gmap string value) (k : string) :
  k ≠ "name" -> k ≠ "tenant_id" -> k ≠ "project_id" ->
  router_args d !! k = d !! k.
Proof.
  intros Hn Ht Hp. unfold router_args. cbv zeta.
  destruct (delete "name" d !! "tenant_id") as [t|];
    [destruct (delete "name" d !! "project_id")|];
    by rewrite ?lookup_insert_ne, ?lookup_delete_ne by done.
Qed.

(** X4: an option dictionary that already holds the keyword the method
    adds itself is refused with [TypeError] before the service is reached:
    ["network_id"] for [_create_port], ["discover_external_gw"] for
    [_create_router].  [_create_port] then leaves the world as it was;
    [_create_router] has already rewritten the caller's dictionary. *)
Theorem duplicate_keyword_is_refused (E : env) (w : world) :
  (∀ network port_create_args i,
     resource_id "network" network = Returned i ->
     is_Some (port_create_args !! "network_id") ->
     _create_port E network port_create_args w = (Raised TypeError, w)) ∧
  (∀ l external_gw,
     is_Some ((heap w !!! l) !! "discover_external_gw") ->
     _create_router E l external_gw w
       = (Raised TypeError,
          World (<[l := router_args (heap w !!! l)]> (heap w))
                (trace w) (drawn w))).
Proof.
  split.
  - intros network port_create_args i Hid [x Hx].
    unfold _create_port, keyword. run. by rewrite Hid, Hx.
  - intros l external_gw [x Hx]. rewrite run_create_router. cbv zeta.
    unfold keyword. by rewrite router_args_other, Hx.
Qed.

Lemma duplicate_keyword_is_refused_witness :
  let port_args : gmap string value := {[ "network_id" := VStr "net-9" ]} in
  let router_args0 : gmap string value :=
    <["name" := VStr "mine"]> {[ "discover_external_gw" := VBool true ]} in
  _create_port Fixture.E0 Fixture.net1 port_args Fixture.w0
    = (Raised TypeError, Fixture.w0) ∧
  _create_router Fixture.E0 1%positive (VBool false)
    (Fixture.holding router_args0)
    = (Raised TypeError,
       World {[ 1%positive := {[ "discover_external_gw" := VBool true ]} ]}
             [] 0).
Proof.
  cbv zeta. split.
  - destruct (duplicate_keyword_is_refused Fixture.E0 Fixture.w0) as [H _].
    apply (H Fixture.net1 _ (VStr "net-1")); [reflexivity|].
    by eexists.
  - destruct (duplicate_keyword_is_refused Fixture.E0
                (Fixture.holding
                   (<["name" := VStr "mine"]>
                      {[ "discover_external_gw" := VBool true ]})))
      as [_ H].
    etransitivity; [apply H; by eexists|]. reflexivity.
Defined.

(** *** A load balancer without id *)

(** X5: when the load balancer has no ["id"] (or is no dictionary at all),
    [update_loadbalancer_resource] does not reach the service: the lookup
    error raised inside the [try] is wrapped into
    [GetResourceFailure(resource=lb, err=e)]. *)
Theorem update_loadbalancer_resource_without_id
    (E : env) (lb : value) (e : exn) (w : world) :
  subscript lb "id" = Raised e ->
  update_loadbalancer_resource E lb w
    = (Raised (GetResourceFailure E lb e), w).
Proof.
  intros Hid. unfold update_loadbalancer_resource. run. rewrite Hid. simpl.
  by destruct (subscript_raises _ _ _ Hid) as [-> | ->].
Qed.

Lemma update_loadbalancer_resource_without_id_witness :
  let lb := VDict {[ "name" := VStr "lb" ]} in
  update_loadbalancer_resource Fixture.E0 lb Fixture.w0
    = (Raised (GetResourceFailure Fixture.E0 lb (KeyError "id")), Fixture.w0).
Proof.
  cbv zeta.
  by apply update_loadbalancer_resource_without_id.
Defined.

(** *** Running a creation method again on the same dictionary *)

Lemma router_args_idempotent (d : gmap string value) :
  router_args (router_args d) = router_args d.
Proof.
  unfold router_args at 1. cbv zeta.
  rewrite (delete_id _ "name") by apply router_args_no_name.
  unfold router_args. cbv zeta.
  destruct (delete "name" d !! "tenant_id") as [t|] eqn:Ht;
    [destruct (delete "name" d !! "project_id") as [p|] eqn:Hp|].
  - by rewrite Ht, Hp.
  - by rewrite lookup_insert_ne, lookup_delete_eq.
  - by rewrite Ht.
Qed.

(** X6: what [_create_network], [_create_subnet] and [_create_router] do
    to the caller's dictionary is idempotent: running the method a second
    time on the same dictionary leaves the store as the first run left it,
    whether or not the second run takes place. *)
Theorem creation_methods_rewrite_once (E : env) (w : world) (l : loc) :
  (heap ((_create_network E l ;;; _create_network E l) w).2
     = heap (_create_network E l w).2) ∧
  (∀ network start_cidr,
     heap ((_create_subnet E network l start_cidr ;;;
            _create_subnet E network l start_cidr) w).2
       = heap (_create_subnet E network l start_cidr w).2) ∧
  (∀ external_gw external_gw',
     heap ((_create_router E l external_gw ;;;
            _create_router E l external_gw') w).2
       = heap (_create_router E l external_gw w).2).
Proof.
  split; [|split].
  - unfold bind. rewrite run_create_network. cbv zeta.
    destruct (service E _ _); simpl; [|done].
    rewrite run_create_network. simpl.
    rewrite lookup_total_insert_eq, insert_insert_eq.
    by rewrite (delete_id (delete _ _)) by apply lookup_delete_eq.
  - intros network start_cidr. unfold bind. rewrite run_create_subnet.
    cbv zeta. destruct (resource_id "network" network) as [i|e] eqn:Hid;
      [|done].
    destruct (service E _ _); simpl; [|done].
    rewrite run_create_subnet, Hid. simpl.
    rewrite lookup_total_insert_eq, insert_insert_eq.
    fold (subnet_kwargs i start_cidr (heap w !!! l)).
    fold (subnet_kwargs i start_cidr
            (subnet_kwargs i start_cidr (heap w !!! l))).
    by rewrite subnet_kwargs_idempotent.
  - intros external_gw external_gw'. unfold bind.
    rewrite run_create_router. cbv zeta.
    destruct (keyword _ external_gw _); [|done].
    destruct (service E _ _); simpl; [|done].
    rewrite run_create_router. cbv zeta. unfold after at 1 2 3. simpl.
    rewrite lookup_total_insert_eq, insert_insert_eq, router_args_idempotent.
    by destruct (keyword _ external_gw' _).
Qed.

(** *** Names of created and updated resources *)

Lemma insert_carries_generated_name (E : env) (w : world)
    (opts : gmap string value) :
  carries_generated_name E w opts
    (<["name" := VStr (random_name E (drawn w))]> opts).
Proof.
  split; [apply lookup_insert_eq|].
  intros k Hk. by apply lookup_insert_ne.
Qed.

(** X7: [_create_security_group], [_create_bgpvpn], [_create_trunk],
    [_update_v1_pool] and [_update_v1_vip] forward the caller's options
    with ["name"] replaced by a newly generated name, so the caller cannot
    choose the name; [_create_trunk] also writes that name into the
    caller's payload.  [_update_v1_healthmonitor] is the exception: it
    forwards the options untouched and generates no name. *)
Theorem lbaas_and_group_methods_force_generated_name (E : env) (w : world) :
  (∀ opts, ∃ kw,
     trace (_create_security_group E opts w).2
       = (trace w ++ [Call NeutronService "create_security_group" [] kw])%list
     ∧ carries_generated_name E w opts kw) ∧
  (∀ opts, ∃ body,
     trace (_create_bgpvpn E opts w).2
       = (trace w ++ [Call AdminNeutronClient "create_bgpvpn"
                        [VDict {[ "bgpvpn" := VDict body ]}] ∅])%list
     ∧ carries_generated_name E w opts body) ∧
  (∀ l, ∃ body,
     trace (_create_trunk E l w).2
       = (trace w ++ [Call NeutronClient "create_trunk"
                        [VDict {[ "trunk" := VDict body ]}] ∅])%list
     ∧ carries_generated_name E w (heap w !!! l) body
     ∧ heap (_create_trunk E l w).2 = <[l := body]> (heap w)) ∧
  (∀ pool opts i,
     resource_id "pool" pool = Returned i ->
     ∃ body,
       trace (_update_v1_pool E pool opts w).2
         = (trace w ++ [Call NeutronClient "update_pool"
                          [i; VDict {[ "pool" := VDict body ]}] ∅])%list
       ∧ carries_generated_name E w opts body) ∧
  (∀ vip opts i,
     resource_id "vip" vip = Returned i ->
     ∃ body,
       trace (_update_v1_vip E vip opts w).2
         = (trace w ++ [Call NeutronClient "update_vip"
                          [i; VDict {[ "vip" := VDict body ]}] ∅])%list
       ∧ carries_generated_name E w opts body) ∧
  (∀ healthmonitor opts i,
     resource_id "health_monitor" healthmonitor = Returned i ->
     trace (_update_v1_healthmonitor E healthmonitor opts w).2
       = (trace w ++ [Call NeutronClient "update_health_monitor"
                        [i; VDict {[ "health_monitor" := VDict opts ]}] ∅])%list
     ∧ drawn (_update_v1_healthmonitor E healthmonitor opts w).2 = drawn w).
Proof.
  split; [|split; [|split; [|split; [|split]]]].
  - intros opts. eexists. split; [|apply insert_carries_generated_name].
    unfold _create_security_group. run. by destruct (service E _ _).
  - intros opts. eexists. split; [|apply insert_carries_generated_name].
    by unfold _create_bgpvpn, wrap; run.
  - intros l. eexists.
    split; [|split; [apply insert_carries_generated_name|]];
      unfold _create_trunk, wrap; run;
      by rewrite ?lookup_total_insert_eq.
  - intros pool opts i Hid. eexists.
    split; [|apply insert_carries_generated_name].
    unfold _update_v1_pool, wrap. run. by rewrite Hid.
  - intros vip opts i Hid. eexists.
    split; [|apply insert_carries_generated_name].
    unfold _update_v1_vip, wrap. run. by rewrite Hid.
  - intros healthmonitor opts i Hid.
    unfold _update_v1_healthmonitor, wrap. run. by rewrite Hid.
Qed.

Lemma lbaas_and_group_methods_force_generated_name_witness :
  let pool := VDict {[ "pool" := VDict {[ "id" := VStr "pool-1" ]} ]} in
  let mine : gmap string value := {[ "name" := VStr "mine" ]} in
  resource_id "pool" pool = Returned (VStr "pool-1") ∧
  ∃ body,
    trace (_update_v1_pool Fixture.E0 pool mine Fixture.w0).2
      = [Call NeutronClient "update_pool"
           [VStr "pool-1"; VDict {[ "pool" := VDict body ]}] ∅]
    ∧ body !! "name" = Some (VStr "s_rally_a").
Proof.
  cbv zeta.
  assert (Hid : resource_id "pool"
                  (VDict {[ "pool" := VDict {[ "id" := VStr "pool-1" ]} ]})
                = Returned (VStr "pool-1")) by reflexivity.
  split; [exact Hid|].
  destruct (lbaas_and_group_methods_force_generated_name Fixture.E0 Fixture.w0)
    as (_ & _ & _ & H & _).
  destruct (H _ {[ "name" := VStr "mine" ]} _ Hid)
    as (body & Htrace & Hname & _).
  by exists body.
Defined.

(** *** Default options of a VIP *)

(** X8: [_create_v1_vip] forwards to [create_vip] a body [{"vip": args}]
    in which the caller's keys win and, otherwise, [protocol] is "HTTP",
    [protocol_port] is 80, [name] is a generated name, and [pool_id] and
    [subnet_id] are those of the given pool.  A pool without
    ["subnet_id"] makes it fail with the lookup error after the name has
    been generated, and nothing is forwarded. *)
Theorem create_v1_vip_defaults_and_override
    (E : env) (pool inner pool_id : value)
    (vip_create_args : gmap string value) (w : world) :
  subscript pool "pool" = Returned inner ->
  subscript inner "id" = Returned pool_id ->
  (∀ subnet_id,
     subscript inner "subnet_id" = Returned subnet_id ->
     ∃ args,
       trace (_create_v1_vip E pool vip_create_args w).2
         = (trace w ++ [Call NeutronClient "create_vip"
                          [VDict {[ "vip" := VDict args ]}] ∅])%list
       ∧ (∀ k v, vip_create_args !! k = Some v -> args !! k = Some v)
       ∧ (∀ k, vip_create_args !! k = None ->
            args !! k =
              if decide (k = "protocol") then Some (VStr "HTTP")
              else if decide (k = "protocol_port") then Some (VInt 80)
              else if decide (k = "name")
                   then Some (VStr (random_name E (drawn w)))
              else if decide (k = "pool_id") then Some pool_id
              else if decide (k = "subnet_id") then Some subnet_id
              else None)) ∧
  (∀ e,
     subscript inner "subnet_id" = Raised e ->
     _create_v1_vip E pool vip_create_args w
       = (Raised e, World (heap w) (trace w) (S (drawn w)))).
Proof.
  intros Hpool Hid.
  assert (Hrid : resource_id "pool" pool = Returned pool_id)
    by (unfold resource_id; by rewrite Hpool).
  split.
  - intros subnet_id Hsub. eexists. split; [|split].
    + unfold _create_v1_vip, wrap. run. by rewrite Hrid, Hpool, Hsub.
    + intros k v Hk. by apply lookup_union_Some_l.
    + intros k Hk. rewrite lookup_union_r by done.
      rewrite !lookup_insert, lookup_singleton.
      unfold LB_PROTOCOL, LB_PROTOCOL_PORT.
      by repeat case_decide; simplify_eq.
  - intros e Hsub. unfold _create_v1_vip. run.
    by rewrite Hrid, Hpool, Hsub.
Qed.

Lemma create_v1_vip_defaults_and_override_witness :
  let inner : gmap string value :=
    <["id" := VStr "pool-1"]> {[ "subnet_id" := VStr "sub-1" ]} in
  let pool := VDict {[ "pool" := VDict inner ]} in
  ∃ args,
    trace (_create_v1_vip Fixture.E0 pool {[ "protocol_port" := VInt 443 ]}
             Fixture.w0).2
      = [Call NeutronClient "create_vip" [VDict {[ "vip" := VDict args ]}] ∅]
    ∧ args !! "protocol_port" = Some (VInt 443)
    ∧ args !! "protocol" = Some (VStr "HTTP")
    ∧ args !! "pool_id" = Some (VStr "pool-1")
    ∧ args !! "subnet_id" = Some (VStr "sub-1").
Proof.
  cbv zeta.
  assert (Hpool : subscript
            (VDict {[ "pool" := VDict
               (<["id" := VStr "pool-1"]> {[ "subnet_id" := VStr "sub-1" ]}) ]})
            "pool"
          = Returned (VDict
               (<["id" := VStr "pool-1"]> {[ "subnet_id" := VStr "sub-1" ]})))
    by reflexivity.
  assert (Hid : subscript
            (VDict (<["id" := VStr "pool-1"]> {[ "subnet_id" := VStr "sub-1" ]}))
            "id" = Returned (VStr "pool-1")) by reflexivity.
  destruct (create_v1_vip_defaults_and_override Fixture.E0 _ _ _
              {[ "protocol_port" := VInt 443 ]} Fixture.w0 Hpool Hid)
    as [H _].
  destruct (H (VStr "sub-1") ltac:(reflexivity))
    as (args & Htrace & Hmine & Hdflt).
  exists args. split; [exact Htrace|].
  split; [by apply Hmine|].
  split; [by rewrite Hdflt|]. split; by rewrite Hdflt.
Defined.

(** *** From creation to deletion *)

Lemma resource_id_wrapped (kind : string) (r : value) :
  resource_id kind (VDict {[ kind := r ]}) = subscript r "id".
Proof. unfold resource_id, subscript. by rewrite lookup_singleton_eq. Qed.

(** X9: what [_create_subnet], [_create_port] and
    [_create_security_group] return can be handed as it is to the
    matching delete method, which then asks the service to delete the id
    the service gave at creation.  [_show_subnet] accepts it too, and
    forwards none of its keyword arguments. *)
Theorem created_resource_feeds_delete (E : env) (w : world) :
  (∀ network l start_cidr i r subnet_id kwargs,
     resource_id "network" network = Returned i ->
     let c := Call NeutronService "create_subnet" []
                (subnet_kwargs i start_cidr (heap w !!! l)) in
     service E (trace w) c = Returned r ->
     subscript r "id" = Returned subnet_id ->
     trace ((v <- _create_subnet E network l start_cidr ;;
             _delete_subnet E v) w).2
       = (trace w ++ [c; Call NeutronService "delete_subnet" [subnet_id] ∅])%list
     ∧ trace ((v <- _create_subnet E network l start_cidr ;;
               _show_subnet E v kwargs) w).2
       = (trace w ++ [c; Call NeutronService "get_subnet" [subnet_id] ∅])%list) ∧
  (∀ network opts i r port_id,
     resource_id "network" network = Returned i ->
     opts !! "network_id" = None ->
     let c := Call NeutronService "create_port" []
                (<["network_id" := i]> opts) in
     service E (trace w) c = Returned r ->
     subscript r "id" = Returned port_id ->
     trace ((v <- _create_port E network opts ;; _delete_port E v) w).2
       = (trace w ++ [c; Call NeutronService "delete_port" [port_id] ∅])%list) ∧
  (∀ opts r group_id,
     let c := Call NeutronService "create_security_group" []
                (<["name" := VStr (random_name E (drawn w))]> opts) in
     service E (trace w) c = Returned r ->
     subscript r "id" = Returned group_id ->
     trace ((v <- _create_security_group E opts ;;
             _delete_security_group E v) w).2
       = (trace w ++
            [c; Call NeutronService "delete_security_group" [group_id] ∅])%list).
Proof.
  split; [|split].
  - intros network l start_cidr i r subnet_id kwargs Hid c Hr Hsub.
    unfold bind at 1 2. rewrite run_create_subnet, Hid. cbv zeta.
    fold (subnet_kwargs i start_cidr (heap w !!! l)). fold c.
    rewrite Hr. simpl. split.
    + unfold _delete_subnet. run. rewrite resource_id_wrapped, Hsub. simpl.
      destruct (service E (trace w ++ [c]) _); simpl; by rewrite <- app_assoc.
    + unfold _show_subnet. run. rewrite resource_id_wrapped, Hsub. simpl.
      destruct (service E (trace w ++ [c]) _); simpl; by rewrite <- app_assoc.
  - intros network opts i r port_id Hid Hfree c Hr Hport.
    unfold _create_port, _delete_port, keyword, wrap. run.
    rewrite Hid, Hfree. simpl. fold c. rewrite Hr. simpl.
    rewrite resource_id_wrapped, Hport. simpl.
    destruct (service E (trace w ++ [c]) _); simpl; by rewrite <- app_assoc.
  - intros opts r group_id c Hr Hgroup.
    unfold _create_security_group, _delete_security_group, wrap. run.
    fold c. rewrite Hr. simpl. rewrite resource_id_wrapped, Hgroup. simpl.
    by rewrite <- app_assoc.
Qed.

Lemma created_resource_feeds_delete_witness :
  let c := Call NeutronService "create_subnet" []
             (<["start_cidr" := VNone]> {[ "network_id" := VStr "net-1" ]}) in
  trace ((v <- _create_subnet Fixture.E0 Fixture.net1 1%positive VNone ;;
          _delete_subnet Fixture.E0 v) (Fixture.holding ∅)).2
    = [c; Call NeutronService "delete_subnet" [VStr "res-1"] ∅].
Proof.
  cbv zeta.
  destruct (created_resource_feeds_delete Fixture.E0 (Fixture.holding ∅))
    as [H _].
  destruct (H Fixture.net1 1%positive VNone (VStr "net-1")
              (VDict {[ "id" := VStr "res-1" ]}) (VStr "res-1") ∅)
    as [Hdel _]; [reflexivity|reflexivity|reflexivity|].
  etransitivity; [exact Hdel|]. reflexivity.
Defined.

(** X10: [_delete_network] reads ["id"] on its argument itself, not under
    ["network"]: handed what [_create_network] returns it fails with
    [KeyError] on ["id"] and deletes nothing; handed the ["network"]
    member of that result it asks the service to delete the created
    network. *)
Theorem delete_network_takes_bare_network
    (E : env) (l : loc) (w : world) (r : value) :
  let c := Call NeutronService "create_network" []
             (delete "name" (heap w !!! l)) in
  service E (trace w) c = Returned r ->
  (v <- _create_network E l ;; _delete_network E v) w
    = (Raised (KeyError "id"),
       after w (<[l := delete "name" (heap w !!! l)]> (heap w)) c (drawn w))
  ∧ ∀ net_id,
      subscript r "id" = Returned net_id ->
      trace ((v <- _create_network E l ;;
              net <- lift (subscript v "network") ;;
              _delete_network E net) w).2
        = (trace w ++ [c; Call NeutronService "delete_network" [net_id] ∅])%list.
Proof.
  intros c Hr. unfold bind at 1 2. rewrite run_create_network. cbv zeta.
  fold c. rewrite Hr. simpl. split.
  - unfold _delete_network. run. by rewrite lookup_singleton_ne.
  - intros net_id Hnet. unfold _delete_network. run.
    rewrite lookup_singleton_eq, Hnet. simpl.
    destruct (service E (trace w ++ [c]) _); simpl; by rewrite <- app_assoc.
Qed.

Lemma delete_network_takes_bare_network_witness :
  let c := Call NeutronService "create_network" [] ∅ in
  (v <- _create_network Fixture.E0 1%positive ;;
   _delete_network Fixture.E0 v) (Fixture.holding ∅)
    = (Raised (KeyError "id"), World {[ 1%positive := ∅ ]} [c] 0).
Proof.
  cbv zeta.
  destruct (delete_network_takes_bare_network Fixture.E0 1%positive
              (Fixture.holding ∅) (VDict {[ "id" := VStr "res-1" ]}))
    as [H _]; [reflexivity|].
  etransitivity; [exact H|]. reflexivity.
Defined.

(** *** Network topologies *)



(** *** Methods that take the bare resource *)

(** X12: [_delete_floating_ip] and [_add_interface_router] read ["id"] on
    their arguments themselves.  Handed what [_create_floatingip] returns,
    [_delete_floating_ip] fails with [KeyError] on ["id"] and deletes
    nothing, while the ["floatingip"] member of that result is accepted.
    [_add_interface_router] looks at the router first and reaches the
    service only when both the router and the subnet have an ["id"]. *)
Theorem bare_resource_methods_reject_wrappers (E : env) (w : world) :
  (∀ floating_network opts r,
     opts !! "floating_network" = None ->
     let c := Call NeutronService "create_floatingip" []
                (<["floating_network" := floating_network]> opts) in
     service E (trace w) c = Returned r ->
     (v <- _create_floatingip E floating_network opts ;;
      _delete_floating_ip E v) w
       = (Raised (KeyError "id"), World (heap w) (trace w ++ [c]) (drawn w))
     ∧ ∀ fip_id,
         subscript r "id" = Returned fip_id ->
         trace ((v <- _create_floatingip E floating_network opts ;;
                 fip <- lift (subscript v "floatingip") ;;
                 _delete_floating_ip E fip) w).2
           = (trace w ++
                [c; Call NeutronService "delete_floatingip" [fip_id] ∅])%list) ∧
  (∀ subnet router e,
     subscript router "id" = Raised e ->
     _add_interface_router E subnet router w = (Raised e, w)) ∧
  (∀ subnet router router_id e,
     subscript router "id" = Returned router_id ->
     subscript subnet "id" = Raised e ->
     _add_interface_router E subnet router w = (Raised e, w)) ∧
  (∀ subnet router router_id subnet_id,
     subscript router "id" = Returned router_id ->
     subscript subnet "id" = Returned subnet_id ->
     trace (_add_interface_router E subnet router w).2
       = (trace w ++ [Call NeutronService "add_interface_to_router" []
                        (<["router_id" := router_id]>
                           {[ "subnet_id" := subnet_id ]})])%list).
Proof.
  split; [|split; [|split]].
  - intros floating_network opts r Hfree c Hr.
    unfold _create_floatingip, _delete_floating_ip, keyword, wrap. run.
    rewrite Hfree. simpl. fold c. rewrite Hr. simpl. split.
    + by rewrite lookup_singleton_ne.
    + intros fip_id Hfip. rewrite lookup_singleton_eq. simpl.
      rewrite Hfip. simpl. by rewrite <- app_assoc.
  - intros subnet router e Hr. unfold _add_interface_router. run.
    by rewrite Hr.
  - intros subnet router router_id e Hr Hs. unfold _add_interface_router.
    run. by rewrite Hr, Hs.
  - intros subnet router router_id subnet_id Hr Hs.
    unfold _add_interface_router. run. rewrite Hr, Hs. simpl.
    by destruct (service E _ _).
Qed.

Lemma bare_resource_methods_reject_wrappers_witness :
  let router := VDict {[ "router" := VDict {[ "id" := VStr "r-1" ]} ]} in
  let subnet := VDict {[ "id" := VStr "s-1" ]} in
  _add_interface_router Fixture.E0 subnet router Fixture.w0
    = (Raised (KeyError "id"), Fixture.w0).
Proof.
  cbv zeta.
  destruct (bare_resource_methods_reject_wrappers Fixture.E0 Fixture.w0)
    as (_ & H & _).
  by apply H.
Defined.

(** *** A pool that cannot be created *)


